(** * The WhatsApp appointment assistant: [main.py] and [app/sheets_sync.py]

    A shallow embedding of the request handler [reply] of [main.py]: the
    parsing of the model's response (step 4), the storing of the
    conversation (step 5), the chat reply (step 6) and the appointment step
    (step 7) with its conflict window, its database writes, its call of
    [sync_appt_to_sheet] and its notices to the sender; followed by the
    properties of the handler.

    Python strings are sequences of Unicode code points and are modelled as
    lists of code points ([Z]). What [json.loads] returns is a Python object
    ([value]). Library functions whose code is not part of the repository
    ([json.loads], [str()], [datetime.strptime]) are the fields of the class
    [Runtime], and every property holds for every runtime; a reference
    runtime makes the examples executable. Collaborators that may fail (the
    model call, the transport, the database session, the spreadsheet API)
    are driven by a record of outcomes, [Env], one per call site; every
    property holds for every such record. A request is a computation over
    the database, the session and the trace of the calls it made. *)

From Stdlib Require Import ZArith List Bool Lia String Ascii.
From Stdlib Require Import Floats.SpecFloat.
Import ListNotations.
Open Scope Z_scope.
#[local] Set Warnings "-register-all".

(** ** Python strings *)

Definition pystr : Type := list Z.

(** An ASCII literal as a Python string. *)
Definition str (s : string) : pystr :=
  map (fun a => Z.of_nat (nat_of_ascii a)) (list_ascii_of_string s).

Module Str.

(** The same, with every apostrophe of the literal standing for a double
    quote (code point 34): used to write JSON documents. *)
Definition json_text (s : string) : pystr :=
  map (fun c => if c =? 39 then 34 else c) (str s).

Fixpoint eqb (s t : pystr) : bool :=
  match s, t with
  | [], [] => true
  | c :: s', d :: t' => (c =? d) && eqb s' t'
  | _, _ => false
  end.

(** [str.isspace] for one code point (CPython's [_PyUnicode_IsWhitespace]). *)
Definition isspace (c : Z) : bool :=
  ((9 <=? c) && (c <=? 13)) || ((28 <=? c) && (c <=? 32))
  || (c =? 133) || (c =? 160) || (c =? 5760)
  || ((8192 <=? c) && (c <=? 8202))
  || (c =? 8232) || (c =? 8233) || (c =? 8239) || (c =? 8287)
  || (c =? 12288).

Fixpoint lstrip (s : pystr) : pystr :=
  match s with
  | c :: s' => if isspace c then lstrip s' else s
  | [] => []
  end.

Definition rstrip (s : pystr) : pystr := rev (lstrip (rev s)).

(** [s.strip()] *)
Definition strip (s : pystr) : pystr := rstrip (lstrip s).

(** [s.startswith(p)] *)
Fixpoint startswith (s p : pystr) : bool :=
  match p, s with
  | [], _ => true
  | d :: p', c :: s' => (c =? d) && startswith s' p'
  | _ :: _, [] => false
  end.

(** [s.split("\n")]: never empty, one more piece than line feeds. *)
Fixpoint split_lf (s : pystr) : list pystr :=
  match s with
  | [] => [[]]
  | c :: s' =>
      if c =? 10 then [] :: split_lf s'
      else match split_lf s' with
           | l :: ls => (c :: l) :: ls
           | [] => [[c]]
           end
  end.

(** ["\n".join(ls)] *)
Fixpoint join_lf (ls : list pystr) : pystr :=
  match ls with
  | [] => []
  | [l] => l
  | l :: ls' => l ++ 10 :: join_lf ls'
  end.

(** [ls[1:-1]] *)
Definition slice_1_m1 {A} (ls : list A) : list A := removelast (tl ls).

(** [s.replace(old, "")] for a non-empty [old]: the occurrences of [old] are
    removed from left to right, without overlap. *)
Fixpoint remove_fuel (fuel : nat) (old s : pystr) : pystr :=
  match fuel with
  | O => s
  | S fuel' =>
      match s with
      | [] => []
      | c :: s' =>
          if startswith s old then remove_fuel fuel' old (skipn (List.length old) s)
          else c :: remove_fuel fuel' old s'
      end
  end.

Definition remove (old s : pystr) : pystr := remove_fuel (S (List.length s)) old s.

End Str.

(** ** Python objects produced by [json.loads] *)

(** A float is an IEEE 754 binary64 number; a dict keeps its items in
    insertion order, with pairwise distinct keys. *)
Inductive value : Type :=
| PyNone
| PyBool (b : bool)
| PyInt (n : Z)
| PyFloat (f : spec_float)
| PyStr (s : pystr)
| PyList (l : list value)
| PyDict (d : list (pystr * value)).

(** Exceptions, by the classes the handlers of [main.py] tell apart: every
    constructor is a subclass of [Exception]; [ValueError] and
    [SQLAlchemyError] have handlers of their own. *)
Inductive exn : Type :=
| ValueError
| SQLAlchemyError
| AttributeError
| TypeError
| KeyError
| OverflowError
| OtherException.

Inductive result (A : Type) : Type :=
| Ok (a : A)
| Raise (e : exn).
Arguments Ok {A} a.
Arguments Raise {A} e.

(** [bool(v)]: the test of [if v:]. *)
Definition truthy (v : value) : bool :=
  match v with
  | PyNone => false
  | PyBool b => b
  | PyInt n => negb (n =? 0)
  | PyFloat (S754_zero _) => false
  | PyFloat _ => true
  | PyStr [] => false
  | PyStr _ => true
  | PyList [] => false
  | PyList _ => true
  | PyDict [] => false
  | PyDict _ => true
  end.

Fixpoint lookup (d : list (pystr * value)) (k : pystr) : option value :=
  match d with
  | [] => None
  | (k', v) :: d' => if Str.eqb k' k then Some v else lookup d' k
  end.

(** [obj.get(key, default)]: only a dict has the method. *)
Definition py_get (obj : value) (key : pystr) (default : value) : result value :=
  match obj with
  | PyDict d =>
      match lookup d key with
      | Some v => Ok v
      | None => Ok default
      end
  | _ => Raise AttributeError
  end.

(** [obj[key]] for a string key: a dict has the item or raises [KeyError];
    a str, a list and the scalars reject a string index with [TypeError]. *)
Definition py_getitem (obj : value) (key : pystr) : result value :=
  match obj with
  | PyDict d =>
      match lookup d key with
      | Some v => Ok v
      | None => Raise KeyError
      end
  | _ => Raise TypeError
  end.

(** [v == s] for a string literal [s]. *)
Definition py_eq_str (v : value) (s : pystr) : bool :=
  match v with
  | PyStr t => Str.eqb t s
  | _ => false
  end.

(** [len(v)] *)
Definition py_len (v : value) : result Z :=
  match v with
  | PyStr s => Ok (Z.of_nat (List.length s))
  | PyList l => Ok (Z.of_nat (List.length l))
  | PyDict d => Ok (Z.of_nat (List.length d))
  | _ => Raise TypeError
  end.

(** ** Dates and times of the [datetime] module *)

Module Datetime.

(** A [date] is its proleptic Gregorian ordinal ([date.toordinal()]), a
    [time] the number of microseconds since midnight. *)
Definition MINUTE : Z := 60000000.
Definition DAY : Z := 1440 * MINUTE.
Definition MAXORDINAL : Z := 3652059.

Record datetime : Type := mkdt { dt_date : Z; dt_time : Z }.

(** [timedelta(minutes=n)], in microseconds. *)
Definition minutes (n : Z) : Z := n * MINUTE.

(** The clock time [h:m]. *)
Definition hm (h m : Z) : Z := (h * 60 + m) * MINUTE.

(** [dt + delta] (and [dt - delta] as [dt + (-delta)]): the day carries, and
    a result outside [date.min .. date.max] raises [OverflowError]. *)
Definition dt_add (dt : datetime) (delta : Z) : result datetime :=
  let total := dt_time dt + delta in
  let days := dt_date dt + total / DAY in
  if (0 <? days) && (days <=? MAXORDINAL)
  then Ok (mkdt days (total mod DAY))
  else Raise OverflowError.

Definition is_leap (y : Z) : bool :=
  ((y mod 4 =? 0) && negb (y mod 100 =? 0)) || (y mod 400 =? 0).

Definition days_in_month (y m : Z) : Z :=
  if m =? 2 then (if is_leap y then 29 else 28)
  else if (m =? 4) || (m =? 6) || (m =? 9) || (m =? 11) then 30
  else 31.

Fixpoint days_before_month_aux (y : Z) (m : nat) : Z :=
  match m with
  | O => 0
  | S m' => days_before_month_aux y m' + days_in_month y (Z.of_nat m)
  end.

(** Days of the year [y] before the first of month [m]. *)
Definition days_before_month (y m : Z) : Z :=
  days_before_month_aux y (Z.to_nat (m - 1)).

Definition days_before_year (y : Z) : Z :=
  let y1 := y - 1 in y1 * 365 + y1 / 4 - y1 / 100 + y1 / 400.

(** [date(y, m, d).toordinal()], [None] for a date that does not exist. *)
Definition ymd (y m d : Z) : option Z :=
  if (1 <=? y) && (y <=? 9999) && (1 <=? m) && (m <=? 12)
     && (1 <=? d) && (d <=? days_in_month y m)
  then Some (days_before_year y + days_before_month y m + d)
  else None.

End Datetime.

Import Datetime.

(** ** Library functions used by [main.py]

    [json_loads s] is [json.loads(s)], [None] when it raises;
    [py_str v] is [str(v)] for an object that is not a string;
    [strptime s] is [datetime.strptime(s, "%Y-%m-%d %H:%M")], [None] when it
    raises [ValueError]. The properties below hold for every runtime. *)
Class Runtime : Type := {
  json_loads : pystr -> option value;
  py_str : value -> pystr;
  strptime : pystr -> option datetime;
}.

(** A replacement field [{v}] of an f-string. *)
Definition format_value `{Runtime} (v : value) : pystr :=
  match v with
  | PyStr s => s
  | _ => py_str v
  end.

(** ** Rows of [app.models] and the events of one request *)

Record Conversation : Type := mkConversation {
  sender : pystr;
  message : pystr;
  response : value;
}.

(** [name] and [type] hold the objects that the handler gives to the
    constructor; [date] is a date and [time] a clock time, as in
    [Datetime]. *)
Record Appointment : Type := mkAppointment {
  phone : pystr;
  name : value;
  type : value;
  date : Z;
  time : Z;
}.

Inductive row : Type :=
| RConversation (c : Conversation)
| RAppointment (a : Appointment).

(** The call sites of [send_message]: lines 137, 161, 190 and 195. *)
Inductive site : Type := ChatReply | CancelNotice | BookingNotice | ConflictNotice.

(** The calls of [logger], by their message. *)
Inductive logmsg : Type :=
| AICallFailed
| ParseError
| IncompleteInfo
| ConversationStoreError
| CancellationSaved
| AppointmentSaved
| ConflictDetected
| InvalidDateTime
| AppointmentStoreError
| UnexpectedAppointmentError.

(** What a request does, in order: each call of a collaborator or of
    [strptime] is one event. [ok] tells whether the call returned. *)
Inductive event : Type :=
| EvLog (m : logmsg)
| EvAdd (r : row)
| EvCommit (rows : list row) (ok : bool)
| EvRollback
| EvStrptime (s : pystr)
| EvQuery (d start_time end_time : Z)
| EvSync (exported : list Appointment) (ok : bool)
| EvSend (from : site) (to : pystr) (body : value) (ok : bool).

(** The database ([conversations], [appointments]: the committed rows, in
    insertion order), the session of the request ([session]: rows added and
    not yet committed; [get_db] closes the session when the request ends,
    and rows still pending then are lost), the events so far, and the two
    local variables of [reply] that the parsing step assigns. *)
Record state : Type := mkstate {
  conversations : list Conversation;
  appointments : list Appointment;
  session : list row;
  trace : list event;
  chat_response : value;
  appt_info : value;
}.

Definition initial (convs : list Conversation) (appts : list Appointment) : state :=
  mkstate convs appts [] [] PyNone PyNone.

(** ** Computations: state and exceptions *)

Definition M (A : Type) : Type := state -> result A * state.

Definition ret {A} (a : A) : M A := fun s => (Ok a, s).

Definition bind {A B} (m : M A) (k : A -> M B) : M B :=
  fun s =>
    match m s with
    | (Ok a, s') => k a s'
    | (Raise e, s') => (Raise e, s')
    end.

Definition raise {A} (e : exn) : M A := fun s => (Raise e, s).

Definition lift {A} (r : result A) : M A := fun s => (r, s).

(** [try: body  except Exception as e: handler e] *)
Definition try_except {A} (body : M A) (handler : exn -> M A) : M A :=
  fun s =>
    match body s with
    | (Ok a, s') => (Ok a, s')
    | (Raise e, s') => handler e s'
    end.

Notation "x <- m ;; k" := (bind m (fun x => k))
  (at level 61, m at next level, right associativity).
Notation "m ;; k" := (bind m (fun _ => k))
  (at level 61, right associativity).

Definition emit (e : event) : M unit :=
  fun s => (Ok tt, mkstate (conversations s) (appointments s) (session s)
                           (trace s ++ [e]) (chat_response s) (appt_info s)).

Definition log (m : logmsg) : M unit := emit (EvLog m).

Definition set_chat_response (v : value) : M unit :=
  fun s => (Ok tt, mkstate (conversations s) (appointments s) (session s)
                           (trace s) v (appt_info s)).

Definition set_appt_info (v : value) : M unit :=
  fun s => (Ok tt, mkstate (conversations s) (appointments s) (session s)
                           (trace s) (chat_response s) v).

Definition get {A} (f : state -> A) : M A := fun s => (Ok (f s), s).

(** A call that may fail: [None] when it returns, [Some e] when it raises. *)
Definition outcome : Type := option exn.

(** ** The database session *)

Definition new_conversations (rows : list row) : list Conversation :=
  flat_map (fun r => match r with RConversation c => [c] | _ => [] end) rows.

Definition new_appointments (rows : list row) : list Appointment :=
  flat_map (fun r => match r with RAppointment a => [a] | _ => [] end) rows.

(** [db.add(r)] *)
Definition db_add (r : row) : M unit :=
  fun s => (Ok tt, mkstate (conversations s) (appointments s) (session s ++ [r])
                           (trace s ++ [EvAdd r]) (chat_response s) (appt_info s)).

(** [db.commit()]: the pending rows become durable, or the call raises and
    they stay pending. *)
Definition db_commit (o : outcome) : M unit :=
  fun s =>
    match o with
    | None =>
        (Ok tt, mkstate (conversations s ++ new_conversations (session s))
                        (appointments s ++ new_appointments (session s))
                        []
                        (trace s ++ [EvCommit (session s) true])
                        (chat_response s) (appt_info s))
    | Some e =>
        (Raise e, mkstate (conversations s) (appointments s) (session s)
                          (trace s ++ [EvCommit (session s) false])
                          (chat_response s) (appt_info s))
    end.

(** [db.rollback()]: the pending rows are dropped. *)
Definition db_rollback : M unit :=
  fun s => (Ok tt, mkstate (conversations s) (appointments s) []
                           (trace s ++ [EvRollback]) (chat_response s) (appt_info s)).

(** The filter of lines 168-171: same date, time in the closed range. *)
Definition in_window (appt_date start_time end_time : Z) (a : Appointment) : bool :=
  (date a =? appt_date) && (start_time <=? time a) && (time a <=? end_time).

(** [db.query(Appointment).filter(...).first()] *)
Definition db_query_first (o : outcome) (appt_date start_time end_time : Z)
  : M (option Appointment) :=
  emit (EvQuery appt_date start_time end_time) ;;
  match o with
  | Some e => raise e
  | None => get (fun s => find (in_window appt_date start_time end_time) (appointments s))
  end.

(** [send_message(to, body)] of [app.utils]: the transport delivers the
    message or raises. *)
Definition send_message (from : site) (o : outcome) (to : pystr) (body : value) : M unit :=
  match o with
  | None => emit (EvSend from to body true)
  | Some e => emit (EvSend from to body false) ;; raise e
  end.

(** [sync_appt_to_sheet()] of [app/sheets_sync.py]: it reads every
    appointment through a session of its own and rewrites the sheet with
    them; it has a [finally] and no [except], so an exception of the
    database or of the spreadsheet API reaches the caller. It never writes
    the database. The cells of the sheet are not modelled: the event keeps
    the appointments that were exported. *)
Definition sync_appt_to_sheet (o : outcome) : M unit :=
  appts <- get appointments ;;
  match o with
  | None => emit (EvSync appts true)
  | Some e => emit (EvSync appts false) ;; raise e
  end.

(** ** The request handler [reply] of [main.py] *)

(** The outcomes of the collaborators during one request, one per call
    site: the history query (line 37), the model call (line 76, which
    returns [response.text], possibly [None], from the message and the
    context), the two commits (lines 129 and 157/184), the conflict query
    (line 168), the spreadsheet mirror (line 187) and the transport (line
    137 for the chat reply; lines 161, 190 and 195 for the notice). *)
Record Env : Type := mkEnv {
  history_query : outcome;
  generate_content : pystr -> pystr -> result (option pystr);
  conversation_commit : outcome;
  reply_send : outcome;
  conflict_query : outcome;
  appointment_commit : outcome;
  sheet_sync : outcome;
  notice_send : outcome;
}.

Definition FALLBACK : pystr :=
  str "I'm having trouble processing that right now. Please try again.".

Definition DEFAULT_REPLY : pystr :=
  str "I'm here to help with your real estate needs!".

Definition required_fields : list pystr :=
  [str "name"; str "type"; str "date"; str "time"].

(** Lines 37-39: the messages of the last three conversations of the
    sender, oldest first, one per line. *)
Definition context_text (whatsapp_number : pystr) (convs : list Conversation) : pystr :=
  let last_msgs :=
    firstn 3 (rev (filter (fun c => Str.eqb (sender c) whatsapp_number) convs)) in
  Str.join_lf (map message (rev last_msgs)).

(** Lines 100-105: the code fence around the JSON document is removed. *)
Definition strip_code_fence (text : pystr) : pystr :=
  let response_text := Str.strip text in
  if Str.startswith response_text (str "```") then
    let lines := Str.split_lf response_text in
    let response_text := Str.join_lf (Str.slice_1_m1 lines) in
    if Str.startswith response_text (str "json")
    then Str.strip (skipn 4 response_text)
    else response_text
  else response_text.

(** [all(obj.get(field) for field in fields)] *)
Fixpoint all_fields (obj : value) (fields : list pystr) : result bool :=
  match fields with
  | [] => Ok true
  | field :: fields' =>
      match py_get obj field PyNone with
      | Raise e => Raise e
      | Ok v => if truthy v then all_fields obj fields' else Ok false
      end
  end.

Section Handler.

Context `{Runtime}.
Variable env : Env.

(** Lines 100-116, the body of the [try] of step 4. [response.text] is
    [None] when the model returned no text, and then [.strip()] raises. *)
Definition parse_body (text : option pystr) : M unit :=
  raw <- match text with
         | Some t => ret t
         | None => raise AttributeError
         end ;;
  let response_text := strip_code_fence raw in
  data <- match json_loads response_text with
          | Some d => ret d
          | None => raise ValueError
          end ;;
  reply_text <- lift (py_get data (str "user_text") (PyStr DEFAULT_REPLY)) ;;
  set_chat_response reply_text ;;
  info <- lift (py_get data (str "appointmentinfo") PyNone) ;;
  set_appt_info info ;;
  if truthy info then
    complete <- lift (all_fields info required_fields) ;;
    if negb complete
    then set_appt_info PyNone ;; log IncompleteInfo
    else ret tt
  else ret tt.

(** Lines 94-119, step 4. *)
Definition parse_response (text : option pystr) : M unit :=
  set_appt_info PyNone ;;
  set_chat_response (PyStr FALLBACK) ;;
  try_except (parse_body text) (fun _ => log ParseError).

(** Lines 121-132, step 5. *)
Definition store_conversation (whatsapp_number Body : pystr) : M unit :=
  try_except
    (reply_text <- get chat_response ;;
     db_add (RConversation (mkConversation whatsapp_number Body reply_text)) ;;
     db_commit (conversation_commit env))
    (fun e =>
       match e with
       | SQLAlchemyError => db_rollback ;; log ConversationStoreError
       | _ => raise e
       end).

(** Lines 135-136: [len] raises for an object without a length, and
    [[:1597] + "..."] raises for a list or a dict. *)
Definition truncate (reply_text : value) : result value :=
  match py_len reply_text with
  | Raise e => Raise e
  | Ok n =>
      if n >? 1600 then
        match reply_text with
        | PyStr s => Ok (PyStr (firstn 1597 s ++ str "..."))
        | _ => Raise TypeError
        end
      else Ok reply_text
  end.

(** Lines 134-137, step 6. *)
Definition send_reply (whatsapp_number : pystr) : M unit :=
  reply_text <- get chat_response ;;
  reply_text <- lift (truncate reply_text) ;;
  set_chat_response reply_text ;;
  send_message ChatReply (reply_send env) whatsapp_number reply_text.

(** The check mark U+2713 that opens both confirmations. *)
Definition CHECK_MARK : pystr := [10003].

Definition cancellation_msg (nm d t : value) : pystr :=
  CHECK_MARK ++ str " Cancellation noted. " ++ format_value nm
  ++ str "'s appointment on " ++ format_value d ++ str " at " ++ format_value t
  ++ str " has been cancelled.".

Definition confirmation_msg (nm ty d t : value) : pystr :=
  CHECK_MARK ++ str " Confirmed! " ++ format_value nm ++ str "'s " ++ format_value ty
  ++ str " on " ++ format_value d ++ str " at " ++ format_value t ++ str ".".

Definition conflict_msg : pystr :=
  str "Sorry, Sherri already has an appointment at that time. Could you choose another time?".

(** Lines 165-166: the two ends of the window, as clock times. *)
Definition window (appt_dt : datetime) : result (Z * Z) :=
  match dt_add appt_dt (- minutes 30) with
  | Raise e => Raise e
  | Ok s =>
      match dt_add appt_dt (minutes 30) with
      | Raise e => Raise e
      | Ok e => Ok (dt_time s, dt_time e)
      end
  end.

(** Lines 165-172, the conflict check of a booking: the window around
    [appt_dt] and the first appointment of that date inside it, if any. *)
Definition conflict_check (appt_dt : datetime) : M (option Appointment) :=
  w <- lift (window appt_dt) ;;
  let start_time := fst w in
  let end_time := snd w in
  db_query_first (conflict_query env) (dt_date appt_dt) start_time end_time.

(** Lines 143-195, the body of the [try] of step 7. The items of
    [appt_info] are read in the order of the source; an item read again
    later is the same object and is bound once. *)
Definition appointment_body (whatsapp_number : pystr) (info : value) : M unit :=
  d <- lift (py_getitem info (str "date")) ;;
  t <- lift (py_getitem info (str "time")) ;;
  let text := format_value d ++ str " " ++ format_value t in
  emit (EvStrptime text) ;;
  appt_dt <- match strptime text with
             | Some dt => ret dt
             | None => raise ValueError
             end ;;
  let appt_date := dt_date appt_dt in
  let appt_time := dt_time appt_dt in
  ty <- lift (py_getitem info (str "type")) ;;
  if py_eq_str ty (str "cancellation") then
    nm <- lift (py_getitem info (str "name")) ;;
    db_add (RAppointment (mkAppointment whatsapp_number nm ty appt_date appt_time)) ;;
    db_commit (appointment_commit env) ;;
    log CancellationSaved ;;
    send_message CancelNotice (notice_send env) whatsapp_number
      (PyStr (cancellation_msg nm d t))
  else
    conflict <- conflict_check appt_dt ;;
    match conflict with
    | None =>
        nm <- lift (py_getitem info (str "name")) ;;
        db_add (RAppointment (mkAppointment whatsapp_number nm ty appt_date appt_time)) ;;
        db_commit (appointment_commit env) ;;
        log AppointmentSaved ;;
        sync_appt_to_sheet (sheet_sync env) ;;
        send_message BookingNotice (notice_send env) whatsapp_number
          (PyStr (confirmation_msg nm ty d t))
    | Some _ =>
        log ConflictDetected ;;
        send_message ConflictNotice (notice_send env) whatsapp_number
          (PyStr conflict_msg)
    end.

(** Lines 141-203: the [try] of step 7 with its three handlers. *)
Definition process_appointment (whatsapp_number : pystr) (info : value) : M unit :=
  try_except (appointment_body whatsapp_number info)
    (fun e =>
       match e with
       | ValueError => log InvalidDateTime
       | SQLAlchemyError => db_rollback ;; log AppointmentStoreError
       | _ => log UnexpectedAppointmentError
       end).

(** Lines 33-205. [From] is the sender as the transport names it. *)
Definition reply (Body From : pystr) : M unit :=
  let whatsapp_number := Str.remove (str "whatsapp:") From in
  (* 1. the last messages of the sender *)
  convs <- get conversations ;;
  match history_query env with Some e => raise e | None => ret tt end ;;
  let context := context_text whatsapp_number convs in
  (* 3. the model call; a failure is logged and raised again *)
  text <- try_except (lift (generate_content env Body context))
            (fun e => log AICallFailed ;; raise e) ;;
  (* 4. the JSON payload *)
  parse_response text ;;
  (* 5. the conversation *)
  store_conversation whatsapp_number Body ;;
  (* 6. the chat reply, first *)
  send_reply whatsapp_number ;;
  (* 7. the appointment, when one was extracted *)
  info <- get appt_info ;;
  if truthy info then process_appointment whatsapp_number info else ret tt.

(** The test of line 140 on the state that step 4 leaves. *)
Definition has_intent (s : state) : bool := truthy (appt_info s).

End Handler.

(** ** Notions used by the properties *)

(** All four fields of an [appointmentinfo] object are present and truthy. *)
Definition complete (info : list (pystr * value)) : Prop :=
  forall field, In field required_fields ->
    exists v, lookup info field = Some v /\ truthy v = true.

(** The events of step 7: date parsing, conflict query, appointment write,
    spreadsheet mirror, notice to the sender, and the log lines of the
    step. *)
Definition is_appointment_row (r : row) : bool :=
  match r with
  | RAppointment _ => true
  | RConversation _ => false
  end.

Definition appointment_event (e : event) : bool :=
  match e with
  | EvStrptime _ => true
  | EvQuery _ _ _ => true
  | EvSync _ _ => true
  | EvAdd r => is_appointment_row r
  | EvCommit rows _ => existsb is_appointment_row rows
  | EvSend ChatReply _ _ _ => false
  | EvSend _ _ _ _ => true
  | EvLog (CancellationSaved | AppointmentSaved | ConflictDetected
          | InvalidDateTime | AppointmentStoreError
          | UnexpectedAppointmentError) => true
  | EvLog _ => false
  | EvRollback => false
  end.

(** A message about an appointment: any [send_message] but the chat reply. *)
Definition is_notice (e : event) : bool :=
  match e with
  | EvSend ChatReply _ _ _ => false
  | EvSend _ _ _ _ => true
  | _ => false
  end.

(** The sender of a request, as line 34 computes it. *)
Definition whatsapp_number_of (From : pystr) : pystr :=
  Str.remove (str "whatsapp:") From.

(** What holds of the result and of the final state of [m] run from [s]. *)
Definition wp {A} (m : M A) (Q : result A -> state -> Prop) (s : state) : Prop :=
  Q (fst (m s)) (snd (m s)).

Definition add_event (e : event) (s : state) : state :=
  mkstate (conversations s) (appointments s) (session s) (trace s ++ [e])
          (chat_response s) (appt_info s).

(** An appointment of the date of [dt] whose time is at most thirty
    minutes away from the time of [dt]. *)
Definition within_half_hour (dt : datetime) (a : Appointment) : Prop :=
  date a = dt_date dt /\ Z.abs (time a - dt_time dt) <= minutes 30.

(** ** A reference runtime

    An executable [Runtime], used by the examples: a JSON decoder after
    CPython's [json.decoder] and [json.scanner], [strptime] for the one
    format of [main.py], and [str()] for the scalars. Two limits of the
    interpreter are left out, the recursion limit and the limit on the
    number of digits of an integer literal, and [strptime] reads ASCII
    digits only. *)

Module Reference.

Definition is_digit (c : Z) : bool := (48 <=? c) && (c <=? 57).

Definition digit (c : Z) : Z := c - 48.

(** *** [json.loads] *)

(** The whitespace of [json.decoder.WHITESPACE]. *)
Definition is_ws (c : Z) : bool :=
  (c =? 32) || (c =? 9) || (c =? 10) || (c =? 13).

Fixpoint skip_ws (s : pystr) : pystr :=
  match s with
  | c :: s' => if is_ws c then skip_ws s' else s
  | [] => []
  end.

Definition hex (c : Z) : option Z :=
  if is_digit c then Some (c - 48)
  else if (97 <=? c) && (c <=? 102) then Some (c - 87)
  else if (65 <=? c) && (c <=? 70) then Some (c - 55)
  else None.

Definition hex4 (a b c d : Z) : option Z :=
  match hex a, hex b, hex c, hex d with
  | Some x, Some y, Some z, Some w => Some (((x * 16 + y) * 16 + z) * 16 + w)
  | _, _, _, _ => None
  end.

Definition simple_escape (c : Z) : option Z :=
  if c =? 34 then Some 34          (* quote *)
  else if c =? 92 then Some 92     (* backslash *)
  else if c =? 47 then Some 47     (* slash *)
  else if c =? 98 then Some 8      (* b *)
  else if c =? 102 then Some 12    (* f *)
  else if c =? 110 then Some 10    (* n *)
  else if c =? 114 then Some 13    (* r *)
  else if c =? 116 then Some 9     (* t *)
  else None.

Definition cons_char (c : Z) (r : option (pystr * pystr)) : option (pystr * pystr) :=
  match r with
  | Some (body, rest) => Some (c :: body, rest)
  | None => None
  end.

(** The text after an opening quote: the decoded string and what follows
    the closing quote. Control characters are refused (strict mode); a high
    surrogate escape followed by a low one is one code point. *)
Fixpoint scan_string (s : pystr) : option (pystr * pystr) :=
  match s with
  | [] => None
  | 34 :: rest => Some ([], rest)
  | 92 :: 117 :: a :: b :: c :: d :: rest =>
      match hex4 a b c d with
      | None => None
      | Some u =>
          if (55296 <=? u) && (u <=? 56319) then
            match rest with
            | 92 :: 117 :: a' :: b' :: c' :: d' :: rest' =>
                match hex4 a' b' c' d' with
                | None => None
                | Some u' =>
                    if (56320 <=? u') && (u' <=? 57343)
                    then cons_char (65536 + (u - 55296) * 1024 + (u' - 56320))
                                   (scan_string rest')
                    else cons_char u (cons_char u' (scan_string rest'))
                end
            | _ => cons_char u (scan_string rest)
            end
          else cons_char u (scan_string rest)
      end
  | 92 :: c :: rest =>
      match simple_escape c with
      | Some c' => cons_char c' (scan_string rest)
      | None => None
      end
  | c :: rest => if c <? 32 then None else cons_char c (scan_string rest)
  end.

(** The longest run of digits: its value, its length, the rest. *)
Fixpoint scan_digits (acc : Z) (n : Z) (s : pystr) : Z * Z * pystr :=
  match s with
  | c :: s' => if is_digit c then scan_digits (acc * 10 + digit c) (n + 1) s' else (acc, n, s)
  | [] => (acc, n, [])
  end.

(** The binary64 number nearest to [m * 10 ^ e10], ties to even, for
    [0 <= m]: what [float()] gives for a decimal literal. *)
Definition float_of_decimal (neg : bool) (m e10 : Z) : spec_float :=
  let signed x := if neg then - x else x in
  if m =? 0 then S754_zero neg
  else if 0 <=? e10 then binary_normalize 53 1024 (signed (m * 10 ^ e10)) 0 neg
  else
    let den := 10 ^ (- e10) in
    let sh := 1200 + Z.log2_up den in
    let num := m * 2 ^ sh in
    let sticky := if num mod den =? 0 then 0 else 1 in
    binary_normalize 53 1024 (signed (2 * (num / den) + sticky)) (- sh - 1) neg.

(** A number, after its optional minus sign: an integer part (a zero, or
    digits that do not start with a zero), then an optional fraction (a dot
    and digits) and an optional exponent (e or E, a sign, digits), each
    taken only when it is complete. *)
Definition scan_number (neg : bool) (s : pystr) : option (value * pystr) :=
  match s with
  | [] => None
  | c :: s' =>
      if negb (is_digit c) then None
      else
        let '(int, _, rest) :=
          if c =? 48 then (0, 1, s') else scan_digits 0 0 s in
        let '(mant, scale, rest1, has_frac) :=
          match rest with
          | 46 :: d :: rest' =>
              if is_digit d then
                let '(m, n, r) := scan_digits int 0 (d :: rest') in (m, n, r, true)
              else (int, 0, rest, false)
          | _ => (int, 0, rest, false)
          end in
        let '(e10, rest2, has_exp) :=
          match rest1 with
          | e :: rest' =>
              if (e =? 101) || (e =? 69) then
                match rest' with
                | sg :: d :: rest'' =>
                    if ((sg =? 43) || (sg =? 45)) && is_digit d then
                      let '(x, _, r) := scan_digits 0 0 (d :: rest'') in
                      ((if sg =? 45 then - x else x), r, true)
                    else if is_digit sg then
                      let '(x, _, r) := scan_digits 0 0 rest' in (x, r, true)
                    else (0, rest1, false)
                | [d] =>
                    if is_digit d then (digit d, [], true) else (0, rest1, false)
                | [] => (0, rest1, false)
                end
              else (0, rest1, false)
          | [] => (0, rest1, false)
          end in
        if has_frac || has_exp
        then Some (PyFloat (float_of_decimal neg mant (e10 - scale)), rest2)
        else Some (PyInt (if neg then - int else int), rest2)
  end.

(** [d[k] = v]: the value of an existing key is replaced in place. *)
Fixpoint dict_set (d : list (pystr * value)) (k : pystr) (v : value)
  : list (pystr * value) :=
  match d with
  | [] => [(k, v)]
  | (k', v') :: d' =>
      if Str.eqb k' k then (k', v) :: d' else (k', v') :: dict_set d' k v
  end.

(** One JSON value at the head of [s]; then the members of an object after
    its opening brace and first quote; then the elements of an array. Every
    call consumes input, so the length of the text is fuel enough. *)
Fixpoint scan_value (fuel : nat) (s : pystr) : option (value * pystr) :=
  match fuel with
  | O => None
  | S fuel' =>
      match s with
      | 34 :: s' =>
          match scan_string s' with
          | Some (body, rest) => Some (PyStr body, rest)
          | None => None
          end
      | 123 :: s' =>
          match skip_ws s' with
          | 125 :: rest => Some (PyDict [], rest)
          | 34 :: rest =>
              match scan_members fuel' [] rest with
              | Some (d, rest') => Some (PyDict d, rest')
              | None => None
              end
          | _ => None
          end
      | 91 :: s' =>
          match skip_ws s' with
          | 93 :: rest => Some (PyList [], rest)
          | rest =>
              match scan_elements fuel' [] rest with
              | Some (l, rest') => Some (PyList l, rest')
              | None => None
              end
          end
      | 110 :: 117 :: 108 :: 108 :: rest => Some (PyNone, rest)
      | 116 :: 114 :: 117 :: 101 :: rest => Some (PyBool true, rest)
      | 102 :: 97 :: 108 :: 115 :: 101 :: rest => Some (PyBool false, rest)
      | 78 :: 97 :: 78 :: rest => Some (PyFloat S754_nan, rest)
      | 73 :: 110 :: 102 :: 105 :: 110 :: 105 :: 116 :: 121 :: rest =>
          Some (PyFloat (S754_infinity false), rest)
      | 45 :: 73 :: 110 :: 102 :: 105 :: 110 :: 105 :: 116 :: 121 :: rest =>
          Some (PyFloat (S754_infinity true), rest)
      | 45 :: s' => scan_number true s'
      | _ => scan_number false s
      end
  end
with scan_members (fuel : nat) (acc : list (pystr * value)) (s : pystr)
  : option (list (pystr * value) * pystr) :=
  match fuel with
  | O => None
  | S fuel' =>
      match scan_string s with
      | None => None
      | Some (key, rest) =>
          match skip_ws rest with
          | 58 :: rest1 =>
              match scan_value fuel' (skip_ws rest1) with
              | None => None
              | Some (v, rest2) =>
                  let acc' := dict_set acc key v in
                  match skip_ws rest2 with
                  | 125 :: rest3 => Some (acc', rest3)
                  | 44 :: rest3 =>
                      match skip_ws rest3 with
                      | 34 :: rest4 => scan_members fuel' acc' rest4
                      | _ => None
                      end
                  | _ => None
                  end
              end
          | _ => None
          end
      end
  end
with scan_elements (fuel : nat) (acc : list value) (s : pystr)
  : option (list value * pystr) :=
  match fuel with
  | O => None
  | S fuel' =>
      match scan_value fuel' s with
      | None => None
      | Some (v, rest) =>
          match skip_ws rest with
          | 93 :: rest1 => Some (acc ++ [v], rest1)
          | 44 :: rest1 => scan_elements fuel' (acc ++ [v]) (skip_ws rest1)
          | _ => None
          end
      end
  end.

(** [json.loads(s)]: one value between optional whitespace, nothing else. *)
Definition loads (s : pystr) : option value :=
  match scan_value (S (List.length s)) (skip_ws s) with
  | Some (v, rest) =>
      match skip_ws rest with
      | [] => Some v
      | _ :: _ => None
      end
  | None => None
  end.

(** *** [datetime.strptime(s, "%Y-%m-%d %H:%M")]

    Each directive is a group of alternatives tried in order, as in the
    regular expression that [_strptime] builds; the space of the format
    matches one or more whitespace characters; no text may remain. *)

(** The alternatives of one directive at the head of [s]: two digits when
    [two a b] accepts them, else one digit when [one a] accepts it. *)
Definition directive (two : Z -> Z -> bool) (one : Z -> bool) (s : pystr)
  : list (Z * pystr) :=
  match s with
  | a :: b :: rest =>
      (if is_digit a && is_digit b && two (digit a) (digit b)
       then [(digit a * 10 + digit b, rest)] else [])
      ++ (if is_digit a && one (digit a) then [(digit a, b :: rest)] else [])
  | [a] => if is_digit a && one (digit a) then [(digit a, [])] else []
  | [] => []
  end.

(** [%m]: 1[0-2], 0[1-9], [1-9]. *)
Definition month_directive : pystr -> list (Z * pystr) :=
  directive (fun a b => ((a =? 1) && (b <=? 2)) || ((a =? 0) && (1 <=? b)))
            (fun a => 1 <=? a).

(** [%d]: 3[01], [12][0-9], 0[1-9], [1-9], and a space before [1-9]. *)
Definition day_directive (s : pystr) : list (Z * pystr) :=
  directive (fun a b => ((a =? 3) && (b <=? 1)) || ((1 <=? a) && (a <=? 2))
                        || ((a =? 0) && (1 <=? b)))
            (fun a => 1 <=? a) s
  ++ match s with
     | 32 :: b :: rest =>
         if is_digit b && (1 <=? digit b) then [(digit b, rest)] else []
     | _ => []
     end.

(** [%H]: 2[0-3], [0-1][0-9], [0-9]. *)
Definition hour_directive : pystr -> list (Z * pystr) :=
  directive (fun a b => ((a =? 2) && (b <=? 3)) || (a <=? 1)) (fun _ => true).

(** [%M]: [0-5][0-9], [0-9]. *)
Definition minute_directive : pystr -> list (Z * pystr) :=
  directive (fun a _ => a <=? 5) (fun _ => true).

(** The first alternative after which [k] matches. *)
Fixpoint first_match {A B} (alts : list (A * pystr)) (k : A -> pystr -> option B)
  : option B :=
  match alts with
  | [] => None
  | (x, rest) :: alts' =>
      match k x rest with
      | Some r => Some r
      | None => first_match alts' k
      end
  end.

Definition literal {B} (c : Z) (s : pystr) (k : pystr -> option B) : option B :=
  match s with
  | c' :: rest => if c' =? c then k rest else None
  | [] => None
  end.

(** One or more whitespace characters. *)
Definition spaces {B} (s : pystr) (k : pystr -> option B) : option B :=
  match s with
  | c :: rest => if Str.isspace c then k (Str.lstrip rest) else None
  | [] => None
  end.

(** The match of the regular expression: the five fields and the text that
    remains. *)
Definition match_format (s : pystr) : option (Z * Z * Z * Z * Z * pystr) :=
  match s with
  | a :: b :: c :: d :: s1 =>
      if is_digit a && is_digit b && is_digit c && is_digit d then
        let y := ((digit a * 10 + digit b) * 10 + digit c) * 10 + digit d in
        literal 45 s1 (fun s2 =>
        first_match (month_directive s2) (fun m s3 =>
        literal 45 s3 (fun s4 =>
        first_match (day_directive s4) (fun dd s5 =>
        spaces s5 (fun s6 =>
        first_match (hour_directive s6) (fun hh s7 =>
        literal 58 s7 (fun s8 =>
        first_match (minute_directive s8) (fun mm s9 =>
        Some (y, m, dd, hh, mm, s9)))))))))
      else None
  | _ => None
  end.

Definition strptime_ymd_hm (s : pystr) : option datetime :=
  match match_format s with
  | Some (y, m, d, hh, mm, []) =>
      match ymd y m d with
      | Some ordinal => Some (mkdt ordinal (hm hh mm))
      | None => None
      end
  | _ => None
  end.

(** *** [str()] *)

Fixpoint decimal_fuel (fuel : nat) (n : Z) (acc : pystr) : pystr :=
  match fuel with
  | O => acc
  | S fuel' =>
      let acc' := (48 + n mod 10) :: acc in
      if n <? 10 then acc' else decimal_fuel fuel' (n / 10) acc'
  end.

(** The decimal digits of [0 <= n]. *)
Definition decimal (n : Z) : pystr := decimal_fuel (S (Z.to_nat (Z.log2 n))) n [].

(** [str(v)] for [None], booleans and integers. The text of a float and of
    a container depends on shortest-digits printing and on the Unicode
    tables; only the name of the type is given for them, and no example
    formats one. *)
Definition str_of (v : value) : pystr :=
  match v with
  | PyNone => str "None"
  | PyBool true => str "True"
  | PyBool false => str "False"
  | PyInt n => if n <? 0 then 45 :: decimal (- n) else decimal n
  | PyStr s => s
  | PyFloat _ => str "<float>"
  | PyList _ => str "<list>"
  | PyDict _ => str "<dict>"
  end.

#[export] Instance runtime : Runtime := {
  json_loads := loads;
  py_str := str_of;
  strptime := strptime_ymd_hm;
}.

End Reference.

(** ** Example inputs *)

Module Examples.

Import Reference.

(** The transport, the database and the spreadsheet all answer; the model
    returns [text] whatever it is asked. *)
Definition env_ok (text : pystr) : Env :=
  mkEnv None (fun _ _ => Ok (Some text)) None None None None None None.

(** The same, but the commit of the appointment raises a storage error. *)
Definition env_commit_fails (text : pystr) : Env :=
  mkEnv None (fun _ _ => Ok (Some text)) None None None (Some SQLAlchemyError)
        None None.

(** The same as [env_ok], but the spreadsheet API raises. *)
Definition env_sync_fails (text : pystr) : Env :=
  mkEnv None (fun _ _ => Ok (Some text)) None None None None
        (Some OtherException) None.

Definition jane_showing : pystr :=
  Str.json_text
    "{'user_text': 'Let me check Sherri availability for that time...', 'appointmentinfo': {'name': 'Jane Doe', 'type': 'showing', 'date': '2026-03-02', 'time': '14:00'}}".

Definition jane_cancellation : pystr :=
  Str.json_text
    "{'user_text': 'Noted.', 'appointmentinfo': {'name': 'Jane Doe', 'type': 'cancellation', 'date': '2026-03-02', 'time': '14:00'}}".

(** No [time] in the appointment. *)
Definition jane_no_time : pystr :=
  Str.json_text
    "{'user_text': 'At what time?', 'appointmentinfo': {'name': 'Jane Doe', 'type': 'showing', 'date': '2026-03-02'}}".

(** No [user_text]. *)
Definition jane_no_user_text : pystr :=
  Str.json_text
    "{'appointmentinfo': {'name': 'Jane Doe', 'type': 'showing', 'date': '2026-03-02', 'time': '14:00'}}".

(** A showing at 00:10 on the first day that [datetime] has. *)
Definition first_day_showing : pystr :=
  Str.json_text
    "{'user_text': 'Let me check...', 'appointmentinfo': {'name': 'Jane Doe', 'type': 'showing', 'date': '0001-01-01', 'time': '00:10'}}".

(** A showing at 23:45. *)
Definition late_showing : pystr :=
  Str.json_text
    "{'user_text': 'Let me check...', 'appointmentinfo': {'name': 'Jane Doe', 'type': 'showing', 'date': '2026-03-02', 'time': '23:45'}}".

Definition hi_there : pystr := str "Hi there!".

Definition jane_info (kind : string) : list (pystr * value) :=
  [(str "name", PyStr (str "Jane Doe")); (str "type", PyStr (str kind));
   (str "date", PyStr (str "2026-03-02")); (str "time", PyStr (str "14:00"))].

(** 2026-03-02, and the rows of that day used below. *)
Definition march_2 : Z := 739677.

Definition row_at (kind : string) (t : Z) : Appointment :=
  mkAppointment (str "+15550100") (PyStr (str "Ann Lee")) (PyStr (str kind))
                march_2 t.

Definition from_jane : pystr := str "whatsapp:+15550123".

(** The appointment that [jane_showing] asks for, and its cancellation. *)
Definition jane : Appointment :=
  mkAppointment (str "+15550123") (PyStr (str "Jane Doe")) (PyStr (str "showing"))
                march_2 (hm 14 0).

Definition jane_cancelled : Appointment :=
  mkAppointment (str "+15550123") (PyStr (str "Jane Doe"))
                (PyStr (str "cancellation")) march_2 (hm 14 0).

End Examples.

(** ** The rows that [sync_appt_to_sheet] writes (lines 34-65)

    The spreadsheet API gives the rows of the sheet as lists of strings and
    takes the rows to write; [str_date] and [str_time] are [str()] on a date
    and on a time. *)

Section SheetRows.

Variables str_date str_time : Z -> pystr.

Definition DEFAULT_HEADER : list pystr :=
  [str "type"; str "date"; str "time"; str "clientName"; str "phone"; str "status"].

(** [row[5] if len(row) > 5 else ""] *)
Definition status (row : list pystr) : pystr :=
  if (5 <? Z.of_nat (List.length row)) then nth 5 row [] else [].

(** [status.strip() == ""] *)
Definition status_blank (row : list pystr) : bool :=
  match Str.strip (status row) with
  | [] => true
  | _ :: _ => false
  end.

(** [v or ""] *)
Definition or_empty (v : value) : value :=
  if truthy v then v else PyStr [].

(** Lines 51-58: the six cells of one appointment. *)
Definition appointment_cells (a : Appointment) : list value :=
  [or_empty (type a);
   or_empty (PyStr (str_date (date a)));
   or_empty (PyStr (str_time (time a)));
   or_empty (name a);
   or_empty (PyStr (phone a));
   PyStr []].

(** Lines 34-65: from the rows read and the appointments of the database
    to the rows written at the top of the sheet. *)
Definition sheet_values (rows : list (list pystr)) (appts : list Appointment)
  : list (list value) :=
  let header := match rows with
                | r :: _ => r
                | [] => DEFAULT_HEADER
                end in
  let data_rows := if (1 <? Z.of_nat (List.length rows)) then tl rows else [] in
  let rows_to_keep := filter status_blank data_rows in
  map (map PyStr) (header :: rows_to_keep) ++ map appointment_cells appts.

End SheetRows.

(** The status cell of a written row is a blank string. *)
Definition written_status_blank (row : list value) : Prop :=
  exists s, nth 5 row (PyStr []) = PyStr s /\ Str.strip s = [].

(** A call of [send_message], and the one of the chat reply (line 137). *)
Definition is_send (e : event) : bool :=
  match e with
  | EvSend _ _ _ _ => true
  | _ => false
  end.

Definition is_chat_reply (e : event) : bool :=
  match e with
  | EvSend ChatReply _ _ _ => true
  | _ => false
  end.

(** The window of [dt] cannot be computed: one of its ends is before
    0001-01-01 or after 9999-12-31. *)
Definition window_out_of_range (dt : datetime) : Prop :=
  (dt_date dt = 1 /\ dt_time dt < minutes 30)
  \/ (dt_date dt = MAXORDINAL /\ DAY - minutes 30 <= dt_time dt).

(** [str()] of a time and of a date, for the examples: [HH:MM:SS], with the
    microseconds when there are some, and [YYYY-MM-DD]. *)
Module ReferenceText.

Import Reference.

(** [n] in decimal, padded with zeros to [width] digits. *)
Definition padded (width : nat) (n : Z) : pystr :=
  let digits := decimal n in
  repeat 48 (width - List.length digits) ++ digits.

Definition time_text (t : Z) : pystr :=
  let us := t mod 1000000 in
  let secs := t / 1000000 in
  padded 2 (secs / 3600) ++ [58] ++ padded 2 (secs / 60 mod 60) ++ [58]
  ++ padded 2 (secs mod 60)
  ++ (if us =? 0 then [] else 46 :: padded 6 us).

(** The greatest [k <= bound] with [below k] before [n], searched downwards. *)
Fixpoint last_before (below : Z -> Z) (n : Z) (bound : nat) : Z :=
  match bound with
  | O => 0
  | S bound' =>
      if below (Z.of_nat bound) <? n then Z.of_nat bound
      else last_before below n bound'
  end.

Definition date_text (ordinal : Z) : pystr :=
  let y := last_before days_before_year ordinal (Z.to_nat 9999) in
  let in_year := ordinal - days_before_year y in
  let m := last_before (days_before_month y) in_year 12 in
  let d := in_year - days_before_month y m in
  padded 4 y ++ [45] ++ padded 2 m ++ [45] ++ padded 2 d.

End ReferenceText.


(** Further environments and texts for the examples. *)
Module MoreExamples.

Import Reference Examples.

(** The model call raises. *)
Definition env_model_fails : Env :=
  mkEnv None (fun _ _ => Raise OtherException) None None None None None None.

(** The commit of the conversation raises [e]. *)
Definition env_conversation_fails (text : pystr) (e : exn) : Env :=
  mkEnv None (fun _ _ => Ok (Some text)) (Some e) None None None None None.

(** The conflict query raises a storage error. *)
Definition env_query_fails (text : pystr) : Env :=
  mkEnv None (fun _ _ => Ok (Some text)) None None (Some SQLAlchemyError) None
        None None.

(** [jane_showing] between two fence lines. *)
Definition fenced_jane : pystr :=
  str "```json" ++ [10] ++ jane_showing ++ [10] ++ str "```".

(** An empty object and its fences on one line. *)
Definition fenced_on_one_line : pystr := str "```json {} ```".

Definition null_reply : pystr :=
  Str.json_text "{'user_text': null, 'appointmentinfo': null}".

Definition string_intent : pystr :=
  Str.json_text "{'user_text': 'Noted.', 'appointmentinfo': 'tomorrow at noon'}".

(** The date is written the other way round. *)
Definition jane_day_first : list (pystr * value) :=
  [(str "name", PyStr (str "Jane Doe")); (str "type", PyStr (str "showing"));
   (str "date", PyStr (str "02/03/2026")); (str "time", PyStr (str "14:00"))].

(** A sheet with its header, a row that was handled and a row that was not. *)
Definition sheet_rows : list (list pystr) :=
  [DEFAULT_HEADER;
   [str "showing"; str "2026-02-27"; str "10:00:00"; str "Ann Lee";
    str "+15550100"; str "done"];
   [str "consultation"; str "2026-03-01"; str "09:00:00"; str "Bob Ray";
    str "+15550101"]].

Definition sheet_rows_unhandled : list (list pystr) :=
  [DEFAULT_HEADER;
   [str "showing"; str "2026-03-02"; str "14:00:00"; str "Jane Doe";
    str "+15550123"]].

End MoreExamples.
(** * Properties *)

(** ** Reasoning about computations *)

Section WP.

Context {A : Type}.
Implicit Types (Q : result A -> state -> Prop) (s : state).

Lemma wp_bind {B} (m : M B) (k : B -> M A) Q s :
  wp m (fun r s' => match r with
                    | Ok b => wp (k b) Q s'
                    | Raise e => Q (Raise e) s'
                    end) s ->
  wp (bind m k) Q s.
Proof. unfold wp, bind. destruct (m s) as [[b | e] s']; exact (fun h => h). Qed.

Lemma wp_try (body : M A) (handler : exn -> M A) Q s :
  wp body (fun r s' => match r with
                       | Ok a => Q (Ok a) s'
                       | Raise e => wp (handler e) Q s'
                       end) s ->
  wp (try_except body handler) Q s.
Proof. unfold wp, try_except. destruct (body s) as [[a | e] s']; exact (fun h => h). Qed.

Lemma wp_ret (a : A) Q s : Q (Ok a) s -> wp (ret a) Q s.
Proof. exact (fun h => h). Qed.

Lemma wp_raise (e : exn) Q s : Q (Raise e) s -> wp (raise e) Q s.
Proof. exact (fun h => h). Qed.

Lemma wp_lift (r : result A) Q s : Q r s -> wp (lift r) Q s.
Proof. exact (fun h => h). Qed.

Lemma wp_get (f : state -> A) Q s : Q (Ok (f s)) s -> wp (get f) Q s.
Proof. exact (fun h => h). Qed.

End WP.

Section WPUnit.

Implicit Types (Q : result unit -> state -> Prop) (s : state).

Lemma wp_emit (e : event) Q s : Q (Ok tt) (add_event e s) -> wp (emit e) Q s.
Proof. exact (fun h => h). Qed.

Lemma wp_log (m : logmsg) Q s : Q (Ok tt) (add_event (EvLog m) s) -> wp (log m) Q s.
Proof. exact (fun h => h). Qed.

Lemma wp_set_chat_response (v : value) Q s :
  Q (Ok tt) (mkstate (conversations s) (appointments s) (session s) (trace s)
                     v (appt_info s)) ->
  wp (set_chat_response v) Q s.
Proof. exact (fun h => h). Qed.

Lemma wp_set_appt_info (v : value) Q s :
  Q (Ok tt) (mkstate (conversations s) (appointments s) (session s) (trace s)
                     (chat_response s) v) ->
  wp (set_appt_info v) Q s.
Proof. exact (fun h => h). Qed.

Lemma wp_db_add (r : row) Q s :
  Q (Ok tt) (mkstate (conversations s) (appointments s) (session s ++ [r])
                     (trace s ++ [EvAdd r]) (chat_response s) (appt_info s)) ->
  wp (db_add r) Q s.
Proof. exact (fun h => h). Qed.

Lemma wp_db_commit_ok Q s :
  Q (Ok tt) (mkstate (conversations s ++ new_conversations (session s))
                     (appointments s ++ new_appointments (session s)) []
                     (trace s ++ [EvCommit (session s) true])
                     (chat_response s) (appt_info s)) ->
  wp (db_commit None) Q s.
Proof. exact (fun h => h). Qed.

Lemma wp_db_commit_raise (e : exn) Q s :
  Q (Raise e) (add_event (EvCommit (session s) false) s) ->
  wp (db_commit (Some e)) Q s.
Proof. exact (fun h => h). Qed.

Lemma wp_db_rollback Q s :
  Q (Ok tt) (mkstate (conversations s) (appointments s) []
                     (trace s ++ [EvRollback]) (chat_response s) (appt_info s)) ->
  wp db_rollback Q s.
Proof. exact (fun h => h). Qed.

End WPUnit.

Ltac wp_norm :=
  cbv beta iota zeta; unfold add_event;
  cbn [conversations appointments session trace chat_response appt_info
       py_get py_getitem fst snd].

(** One step of symbolic execution; [wp_run] executes until the
    postcondition is reached on every path. *)
Ltac wp_step :=
  lazymatch goal with
  | |- wp (bind _ _) _ _ => apply wp_bind
  | |- wp (try_except _ _) _ _ => apply wp_try
  | |- wp (ret _) _ _ => apply wp_ret
  | |- wp (raise _) _ _ => apply wp_raise
  | |- wp (lift ?r) _ _ => apply wp_lift
  | |- wp (get _) _ _ => apply wp_get
  | |- wp (emit _) _ _ => apply wp_emit
  | |- wp (log _) _ _ => apply wp_log
  | |- wp (set_chat_response _) _ _ => apply wp_set_chat_response
  | |- wp (set_appt_info _) _ _ => apply wp_set_appt_info
  | |- wp (db_add _) _ _ => apply wp_db_add
  | |- wp (db_commit None) _ _ => apply wp_db_commit_ok
  | |- wp (db_commit (Some _)) _ _ => apply wp_db_commit_raise
  | |- wp (db_commit ?o) _ _ => destruct o eqn:?
  | |- wp db_rollback _ _ => apply wp_db_rollback
  | |- wp (db_query_first _ _ _ _) _ _ => unfold db_query_first
  | |- wp (send_message _ _ _ _) _ _ => unfold send_message
  | |- wp (sync_appt_to_sheet _) _ _ => unfold sync_appt_to_sheet
  | |- wp (conflict_check _ _) _ _ => unfold conflict_check
  | |- wp (match ?x with _ => _ end) _ _ => destruct x eqn:?
  | |- match ?x with _ => _ end => destruct x eqn:?
  end; wp_norm.

Ltac wp_run := wp_norm; repeat wp_step.

(** ** The conflict check (lines 165-172) *)

Lemma in_window_iff (d st en : Z) (a : Appointment) :
  in_window d st en a = true <-> date a = d /\ st <= time a <= en.
Proof.
  unfold in_window. rewrite !andb_true_iff, Z.eqb_eq, !Z.leb_le. tauto.
Qed.

Lemma find_in_window_some (d st en : Z) (appts : list Appointment) :
  (exists c, find (in_window d st en) appts = Some c) <->
  (exists a, In a appts /\ date a = d /\ st <= time a <= en).
Proof.
  split.
  - intros [c Hc]. apply find_some in Hc. destruct Hc as [Hin Hw].
    exists c. split; [assumption | now apply in_window_iff].
  - intros [a [Hin Hw]]. destruct (find (in_window d st en) appts) as [c|] eqn:E.
    + now exists c.
    + apply (find_none _ _ E) in Hin. apply in_window_iff in Hw. congruence.
Qed.

Lemma find_in_window_none (d st en : Z) (appts : list Appointment) :
  find (in_window d st en) appts = None <->
  ~ (exists a, In a appts /\ date a = d /\ st <= time a <= en).
Proof.
  rewrite <- find_in_window_some. split.
  - intros E [c Hc]. congruence.
  - intros N. destruct (find (in_window d st en) appts) as [c|] eqn:E;
      [exfalso; apply N; now exists c | reflexivity].
Qed.

(** The filter reads the date and the time of a row, nothing else. *)
Lemma find_in_window_same_slots (d st en : Z) (l1 l2 : list Appointment) :
  map (fun a => (date a, time a)) l1 = map (fun a => (date a, time a)) l2 ->
  (exists c, find (in_window d st en) l1 = Some c) ->
  exists c, find (in_window d st en) l2 = Some c.
Proof.
  revert l2. induction l1 as [| a l1 IH]; intros [| b l2] E; try discriminate.
  - intros [c Hc]. discriminate.
  - cbn [map] in E. injection E as Ed Et El. cbn [find].
    assert (W : in_window d st en a = in_window d st en b)
      by (unfold in_window; now rewrite Ed, Et).
    rewrite W. destruct (in_window d st en b).
    + intros _. now exists b.
    + apply IH, El.
Qed.

Lemma window_same_day (dt : datetime) :
  0 < dt_date dt <= MAXORDINAL ->
  minutes 30 <= dt_time dt ->
  dt_time dt + minutes 30 < DAY ->
  window dt = Ok (dt_time dt - minutes 30, dt_time dt + minutes 30).
Proof.
  intros Hd Hlo Hhi. unfold window, dt_add.
  assert (H30 : 0 < minutes 30) by reflexivity.
  replace ((dt_time dt + - minutes 30) / DAY) with 0
    by (symmetry; apply Z.div_small; lia).
  replace ((dt_time dt + minutes 30) / DAY) with 0
    by (symmetry; apply Z.div_small; lia).
  rewrite Z.add_0_r.
  replace ((0 <? dt_date dt) && (dt_date dt <=? MAXORDINAL)) with true
    by (symmetry; apply andb_true_iff; split; [apply Z.ltb_lt | apply Z.leb_le]; lia).
  cbn [dt_time]. rewrite !Z.mod_small by lia. f_equal.
Qed.

(** Before 00:30 the window starts on the previous day. *)
Lemma window_early (dt : datetime) :
  1 < dt_date dt <= MAXORDINAL ->
  0 <= dt_time dt < minutes 30 ->
  window dt = Ok (dt_time dt - minutes 30 + DAY, dt_time dt + minutes 30).
Proof.
  intros Hd Ht. unfold window, dt_add.
  assert (H30 : minutes 30 = 1800000000) by reflexivity.
  assert (HD : DAY = 86400000000) by reflexivity.
  replace ((dt_time dt + - minutes 30) / DAY) with (-1)
    by (apply (Z.div_unique _ _ _ (dt_time dt - minutes 30 + DAY)); lia).
  replace ((dt_time dt + minutes 30) / DAY) with 0
    by (symmetry; apply Z.div_small; lia).
  replace ((0 <? dt_date dt + -1) && (dt_date dt + -1 <=? MAXORDINAL)) with true
    by (symmetry; apply andb_true_iff; split; [apply Z.ltb_lt | apply Z.leb_le]; lia).
  replace ((0 <? dt_date dt + 0) && (dt_date dt + 0 <=? MAXORDINAL)) with true
    by (symmetry; apply andb_true_iff; split; [apply Z.ltb_lt | apply Z.leb_le]; lia).
  cbn [dt_time]. f_equal. f_equal.
  - symmetry. apply (Z.mod_unique _ _ (-1)); lia.
  - apply Z.mod_small; lia.
Qed.

(** From 23:30 on the window ends on the next day. *)
Lemma window_late (dt : datetime) :
  0 < dt_date dt < MAXORDINAL ->
  DAY - minutes 30 <= dt_time dt < DAY ->
  window dt = Ok (dt_time dt - minutes 30, dt_time dt + minutes 30 - DAY).
Proof.
  intros Hd Ht. unfold window, dt_add.
  assert (H30 : minutes 30 = 1800000000) by reflexivity.
  assert (HD : DAY = 86400000000) by reflexivity.
  replace ((dt_time dt + - minutes 30) / DAY) with 0
    by (symmetry; apply Z.div_small; lia).
  replace ((dt_time dt + minutes 30) / DAY) with 1
    by (apply (Z.div_unique _ _ _ (dt_time dt + minutes 30 - DAY)); lia).
  replace ((0 <? dt_date dt + 0) && (dt_date dt + 0 <=? MAXORDINAL)) with true
    by (symmetry; apply andb_true_iff; split; [apply Z.ltb_lt | apply Z.leb_le]; lia).
  replace ((0 <? dt_date dt + 1) && (dt_date dt + 1 <=? MAXORDINAL)) with true
    by (symmetry; apply andb_true_iff; split; [apply Z.ltb_lt | apply Z.leb_le]; lia).
  cbn [dt_time]. f_equal. f_equal.
  - apply Z.mod_small; lia.
  - symmetry. apply (Z.mod_unique _ _ 1); lia.
Qed.

(** On 0001-01-01 before 00:30 and on 9999-12-31 from 23:30 on, one end of
    the window is not a datetime. *)
Lemma window_overflow (dt : datetime) :
  0 <= dt_time dt < DAY ->
  (dt_date dt = 1 /\ dt_time dt < minutes 30)
  \/ (dt_date dt = MAXORDINAL /\ DAY - minutes 30 <= dt_time dt) ->
  window dt = Raise OverflowError.
Proof.
  intros Ht Hc. unfold window, dt_add.
  assert (H30 : minutes 30 = 1800000000) by reflexivity.
  assert (HD : DAY = 86400000000) by reflexivity.
  assert (HM : MAXORDINAL = 3652059) by reflexivity.
  destruct Hc as [[Hd Hlo] | [Hd Hhi]]; rewrite Hd.
  - replace ((dt_time dt + - minutes 30) / DAY) with (-1)
      by (apply (Z.div_unique _ _ _ (dt_time dt - minutes 30 + DAY)); lia).
    reflexivity.
  - replace ((dt_time dt + - minutes 30) / DAY) with 0
      by (symmetry; apply Z.div_small; lia).
    replace ((dt_time dt + minutes 30) / DAY) with 1
      by (apply (Z.div_unique _ _ _ (dt_time dt + minutes 30 - DAY)); lia).
    reflexivity.
Qed.

Lemma conflict_check_returns (env : Env) (dt : datetime) (s : state) (st en : Z) :
  conflict_query env = None ->
  window dt = Ok (st, en) ->
  fst (conflict_check env dt s)
  = Ok (find (in_window (dt_date dt) st en) (appointments s)).
Proof.
  intros Hq Hw. unfold conflict_check, bind, lift, db_query_first.
  rewrite Hw, Hq. reflexivity.
Qed.

Lemma conflict_check_overflow (env : Env) (dt : datetime) (s : state) :
  window dt = Raise OverflowError ->
  conflict_check env dt s = (Raise OverflowError, s).
Proof.
  intros Hw. unfold conflict_check, bind, lift. now rewrite Hw.
Qed.

(** C3: for a booking whose window of thirty minutes on either side stays
    within the day, the conflict check reports a conflict exactly when some
    existing appointment of the same date is at most thirty minutes away,
    both ends included; an appointment exactly 31 minutes away is no
    conflict, one exactly 30 minutes away is. *)
Theorem conflict_iff_within_30_minutes (env : Env) (s : state) (dt : datetime) :
  conflict_query env = None ->
  0 < dt_date dt <= MAXORDINAL ->
  minutes 30 <= dt_time dt ->
  dt_time dt + minutes 30 < DAY ->
  ((exists c, fst (conflict_check env dt s) = Ok (Some c)) <->
   (exists a, In a (appointments s) /\ within_half_hour dt a))
  /\ (fst (conflict_check env dt s) = Ok None <->
      ~ (exists a, In a (appointments s) /\ within_half_hour dt a))
  /\ (forall a, appointments s = [a] -> date a = dt_date dt ->
        Z.abs (time a - dt_time dt) = minutes 31 ->
        fst (conflict_check env dt s) = Ok None)
  /\ (forall a, appointments s = [a] -> date a = dt_date dt ->
        Z.abs (time a - dt_time dt) = minutes 30 ->
        fst (conflict_check env dt s) = Ok (Some a)).
Proof.
  intros Hq Hd Hlo Hhi.
  rewrite (conflict_check_returns env dt s _ _ Hq (window_same_day dt Hd Hlo Hhi)).
  assert (Hnear : forall a,
             (date a = dt_date dt
              /\ dt_time dt - minutes 30 <= time a <= dt_time dt + minutes 30)
             <-> within_half_hour dt a).
  { intros a. unfold within_half_hour. split; intros [E B]; (split; [exact E | lia]). }
  assert (H31 : minutes 30 < minutes 31) by reflexivity.
  repeat split.
  - intros [c Hc]. injection Hc as Hc.
    destruct (proj1 (find_in_window_some _ _ _ _) (ex_intro _ c Hc)) as [a [Hin Ha]].
    exists a. split; [exact Hin | now apply Hnear].
  - intros [a [Hin Ha]]. apply Hnear in Ha.
    destruct (proj2 (find_in_window_some _ _ _ _) (ex_intro _ a (conj Hin Ha)))
      as [c Hc].
    exists c. now rewrite Hc.
  - intros E [a [Hin Ha]]. injection E as E. apply Hnear in Ha.
    apply (proj1 (find_in_window_none _ _ _ _) E). now exists a.
  - intros N. f_equal. apply find_in_window_none. intros [a [Hin Ha]].
    apply N. exists a. split; [exact Hin | now apply Hnear].
  - intros a Hs Ea Hdist. rewrite Hs. cbn [find].
    replace (in_window _ _ _ a) with false; [reflexivity |].
    symmetry. apply not_true_iff_false. rewrite in_window_iff. lia.
  - intros a Hs Ea Hdist. rewrite Hs. cbn [find].
    replace (in_window _ _ _ a) with true; [reflexivity |].
    symmetry. apply in_window_iff. lia.
Qed.

(** C10, amended: for a booking before 00:30 or from 23:30 on, on any date
    where both ends of the window are datetimes (every date but 0001-01-01
    for the early case and 9999-12-31 for the late case), the start of the
    window is later than its end, the range of the query holds no row, and
    the conflict check reports no conflict whatever the appointments are. *)
Theorem midnight_window_never_conflicts (env : Env) (s : state) (dt : datetime) :
  conflict_query env = None ->
  0 < dt_date dt <= MAXORDINAL ->
  0 <= dt_time dt < DAY ->
  dt_time dt < minutes 30 \/ DAY - minutes 30 <= dt_time dt ->
  ~ (dt_date dt = 1 /\ dt_time dt < minutes 30) ->
  ~ (dt_date dt = MAXORDINAL /\ DAY - minutes 30 <= dt_time dt) ->
  exists start_time end_time,
    window dt = Ok (start_time, end_time)
    /\ end_time < start_time
    /\ (forall a, in_window (dt_date dt) start_time end_time a = false)
    /\ fst (conflict_check env dt s) = Ok None.
Proof.
  intros Hq Hd Ht Hcross Hmin Hmax.
  assert (H30 : minutes 30 = 1800000000) by reflexivity.
  assert (HD : DAY = 86400000000) by reflexivity.
  assert (Hw : exists st en, window dt = Ok (st, en) /\ en < st).
  { destruct Hcross as [Hearly | Hlate].
    - exists (dt_time dt - minutes 30 + DAY), (dt_time dt + minutes 30).
      split; [apply window_early; lia | lia].
    - exists (dt_time dt - minutes 30), (dt_time dt + minutes 30 - DAY).
      split; [apply window_late; lia | lia]. }
  destruct Hw as [st [en [Hw Hlt]]]. exists st, en.
  assert (Hout : forall a, in_window (dt_date dt) st en a = false).
  { intros a. apply not_true_iff_false. rewrite in_window_iff. lia. }
  repeat split; try assumption.
  rewrite (conflict_check_returns env dt s st en Hq Hw). f_equal.
  apply find_in_window_none. intros [a [_ Ha]].
  apply in_window_iff in Ha. now rewrite Hout in Ha.
Qed.

(** C1, amended: the conflict check of a booking reads every existing row,
    whatever its kind: a row of the same date whose time lies in the window,
    a cancellation like any other, makes it report a conflict, and the
    report depends on the dates and times of the rows only. *)
Theorem conflict_check_ignores_kind (env : Env) (s : state) (dt : datetime)
    (start_time end_time : Z) (a : Appointment) :
  conflict_query env = None ->
  window dt = Ok (start_time, end_time) ->
  In a (appointments s) ->
  date a = dt_date dt ->
  start_time <= time a <= end_time ->
  (exists c, fst (conflict_check env dt s) = Ok (Some c))
  /\ (forall s2,
        map (fun b => (date b, time b)) (appointments s)
        = map (fun b => (date b, time b)) (appointments s2) ->
        exists c, fst (conflict_check env dt s2) = Ok (Some c)).
Proof.
  intros Hq Hw Hin Hd Ht.
  assert (Hc : exists c,
             find (in_window (dt_date dt) start_time end_time) (appointments s)
             = Some c).
  { apply find_in_window_some. now exists a. }
  split.
  - rewrite (conflict_check_returns env dt s _ _ Hq Hw).
    destruct Hc as [c Hc]. exists c. now rewrite Hc.
  - intros s2 E. rewrite (conflict_check_returns env dt s2 _ _ Hq Hw).
    destruct (find_in_window_same_slots _ _ _ _ _ E Hc) as [c Hc2].
    exists c. now rewrite Hc2.
Qed.

(** ** The response parser (step 4, lines 94-119) *)

Section Parser.
Context `{Runtime}.

Lemma all_fields_dict (info : list (pystr * value)) (fields : list pystr) :
  exists b, all_fields (PyDict info) fields = Ok b
            /\ (b = true <->
                forall field, In field fields ->
                  exists v, lookup info field = Some v /\ truthy v = true).
Proof.
  induction fields as [| f fields IH].
  - exists true. split; [reflexivity |]. split; [intros _ ? [] | reflexivity].
  - cbn [all_fields py_get]. destruct (lookup info f) as [v |] eqn:E.
    + destruct (truthy v) eqn:T.
      * destruct IH as [b [Hb Hiff]]. exists b. split; [exact Hb |].
        rewrite Hiff. split.
        -- intros Hall g [<- | Hg]; [now exists v | now apply Hall].
        -- intros Hall g Hg. apply Hall. now right.
      * exists false. split; [reflexivity |]. split; [discriminate |].
        intros Hall. destruct (Hall f (or_introl eq_refl)) as [v' [E' T']].
        congruence.
    + exists false. split; [reflexivity |]. split; [discriminate |].
      intros Hall. destruct (Hall f (or_introl eq_refl)) as [v' [E' T']].
      congruence.
Qed.

Lemma all_fields_complete (info : list (pystr * value)) :
  exists b, all_fields (PyDict info) required_fields = Ok b
            /\ (b = true <-> complete info).
Proof. apply all_fields_dict. Qed.

Lemma complete_nonempty (info : list (pystr * value)) :
  complete info -> truthy (PyDict info) = true.
Proof.
  intros Hc. destruct info as [| p info]; [| reflexivity].
  destruct (Hc (str "name") (or_introl eq_refl)) as [v [E _]]. discriminate.
Qed.

(** Step 4 never raises, leaves the database alone and logs at most. *)
Lemma parse_response_frame (text : option pystr) (s : state) :
  wp (parse_response text)
     (fun r s' =>
        r = Ok tt
        /\ conversations s' = conversations s
        /\ appointments s' = appointments s
        /\ session s' = session s
        /\ exists t, trace s' = trace s ++ t
                     /\ Forall (fun e => e = EvLog ParseError
                                         \/ e = EvLog IncompleteInfo) t) s.
Proof.
  unfold parse_response, parse_body. wp_run.
  all: repeat (split; [reflexivity |]).
  all: first [ exists []; split; [symmetry; apply app_nil_r | constructor]
             | eexists; split;
               [reflexivity | repeat (apply Forall_cons; [auto |]); apply Forall_nil] ].
Qed.

(** What step 4 leaves in the two local variables does not depend on the
    state it starts from. *)
Lemma parse_response_locals (text : option pystr) (s1 s2 : state) :
  chat_response (snd (parse_response text s1))
  = chat_response (snd (parse_response text s2))
  /\ appt_info (snd (parse_response text s1))
     = appt_info (snd (parse_response text s2)).
Proof.
  unfold parse_response, parse_body, bind, lift, ret, raise, try_except, log, emit,
    set_chat_response, set_appt_info.
  cbn [fst snd].
  destruct text as [raw |]; [| split; reflexivity].
  destruct (json_loads (strip_code_fence raw)) as [data |]; [| split; reflexivity].
  destruct (py_get data (str "user_text") (PyStr DEFAULT_REPLY)) as [cr | e];
    [| split; reflexivity].
  destruct (py_get data (str "appointmentinfo") PyNone) as [ai | e];
    [| split; reflexivity].
  cbn [fst snd]. destruct (truthy ai); [| split; reflexivity].
  destruct (all_fields ai required_fields) as [[] | e]; split; reflexivity.
Qed.

Lemma parse_malformed (raw : pystr) (s : state) :
  (forall d, json_loads (strip_code_fence raw) <> Some (PyDict d)) ->
  wp (parse_response (Some raw))
     (fun r s' => r = Ok tt /\ chat_response s' = PyStr FALLBACK
                  /\ appt_info s' = PyNone) s.
Proof.
  intros Hbad. unfold parse_response, parse_body.
  do 8 wp_step.
  destruct (json_loads (strip_code_fence raw)) as [[ | b | n | f | t | l | d] |] eqn:E;
    try (now destruct (Hbad d)); wp_run; auto.
Qed.

Lemma parse_object (raw : pystr) (data info : list (pystr * value)) (s : state) :
  json_loads (strip_code_fence raw) = Some (PyDict data) ->
  lookup data (str "appointmentinfo") = Some (PyDict info) ->
  wp (parse_response (Some raw))
     (fun r s' =>
        r = Ok tt
        /\ chat_response s'
           = match lookup data (str "user_text") with
             | Some v => v
             | None => PyStr DEFAULT_REPLY
             end
        /\ (complete info -> appt_info s' = PyDict info)
        /\ (~ complete info ->
            truthy (appt_info s') = false
            /\ (info <> [] -> appt_info s' = PyNone))) s.
Proof.
  intros Hloads Hinfo. unfold parse_response, parse_body.
  do 8 wp_step. rewrite Hloads. do 3 wp_step.
  destruct (lookup data (str "user_text")) as [v |] eqn:Eu; wp_norm.
  all: do 3 wp_step; rewrite Hinfo; do 3 wp_step.
  all: destruct (all_fields_complete info) as [b [Hb Hiff]].
  all: destruct info as [| p info]; cbn [truthy]; wp_norm.
  1, 3: apply wp_ret; wp_norm;
    (split; [reflexivity |]); (split; [reflexivity |]);
    (split; [reflexivity |]); intros _; (split; [reflexivity |]);
    intros N; now destruct N.
  all: apply wp_bind, wp_lift; rewrite Hb; wp_norm.
  all: destruct b; cbn [negb]; wp_run.
  all: (split; [reflexivity |]); (split; [reflexivity |]); split.
  all: try reflexivity.
  all: try (intros N; exfalso; apply N; now apply Hiff).
  all: try (intros Hc; apply Hiff in Hc; discriminate).
  all: intros _; split; intros; reflexivity.
Qed.

End Parser.

(** ** The appointment step (step 7, lines 139-203) *)

(** The events of a path, read off the final trace. *)
Ltac trace_suffix :=
  rewrite <- ?app_assoc; cbn [app];
  first [ exists []; split; [symmetry; apply app_nil_r |]
        | eexists; split; [reflexivity |] ].

Ltac in_cases H :=
  cbn [In] in H;
  repeat match type of H with
         | _ \/ _ => destruct H as [H | H]
         end;
  try discriminate H; try contradiction H.

Section Process.
Context `{Runtime}.
Variable env : Env.

Lemma handlers_return (e : exn) (s : state) :
  wp (match e with
      | ValueError => log InvalidDateTime
      | SQLAlchemyError => db_rollback ;; log AppointmentStoreError
      | _ => log UnexpectedAppointmentError
      end) (fun r _ => r = Ok tt) s.
Proof. destruct e; wp_run; reflexivity. Qed.

(** Step 7 never raises. *)
Lemma process_appointment_returns (n : pystr) (info : value) (s : state) :
  fst (process_appointment env n info s) = Ok tt.
Proof.
  change (wp (process_appointment env n info) (fun r _ => r = Ok tt) s).
  unfold process_appointment. apply wp_try.
  unfold wp. destruct (appointment_body env n info s) as [[[] | e] s'].
  - reflexivity.
  - apply handlers_return.
Qed.

(** Step 7 keeps the chat reply and only adds events. *)
Lemma process_appointment_frame (n : pystr) (info : value) (s : state) :
  wp (process_appointment env n info)
     (fun r s' => chat_response s' = chat_response s
                  /\ exists t, trace s' = trace s ++ t) s.
Proof.
  unfold process_appointment, appointment_body. wp_run.
  all: split; [reflexivity |].
  all: rewrite <- ?app_assoc; eexists; reflexivity.
Qed.

Lemma process_storage_error (n : pystr) (info : value) (s : state) :
  appointment_commit env = Some SQLAlchemyError ->
  wp (process_appointment env n info)
     (fun r s' =>
        exists t, trace s' = trace s ++ t
          /\ (forall rows, In (EvCommit rows false) t ->
                appointments s' = appointments s
                /\ conversations s' = conversations s
                /\ session s' = []
                /\ In EvRollback t
                /\ In (EvLog AppointmentStoreError) t
                /\ Forall (fun e => is_notice e = false) t)) s.
Proof.
  intros Hc. unfold process_appointment, appointment_body. rewrite Hc. wp_run.
  all: trace_suffix.
  all: intros rows Hin; in_cases Hin.
  all: repeat (split; [reflexivity |]).
  all: split; [cbn [In]; auto 10 |].
  all: split; [cbn [In]; auto 10 |].
  all: repeat constructor.
Qed.

(** An intent that is no JSON object (the validation of step 4 raised on
    it and left it in [appt_info]) stops step 7 at its first item access:
    nothing is written, nothing is sent. *)
Lemma process_non_object (n : pystr) (info : value) (s : state) :
  (forall d, info <> PyDict d) ->
  process_appointment env n info s
  = (Ok tt, add_event (EvLog UnexpectedAppointmentError) s).
Proof.
  intros Hno. unfold process_appointment, appointment_body, try_except, bind, lift.
  destruct info; try reflexivity. now destruct (Hno d).
Qed.

(** The mirror fails after the commit and before the notice. *)
Lemma process_mirror_failure (n : pystr) (info : value) (s : state) :
  session s = [] ->
  wp (process_appointment env n info)
     (fun r s' =>
        exists t, trace s' = trace s ++ t
          /\ (forall exported, In (EvSync exported false) t ->
                r = Ok tt
                /\ (exists a, appointments s' = appointments s ++ [a]
                              /\ exported = appointments s ++ [a]
                              /\ In (EvCommit [RAppointment a] true) t)
                /\ Forall (fun e => is_notice e = false) t)) s.
Proof.
  intros Hs. destruct s as [cs ap se tr cr ai]. cbn [session] in Hs. subst se.
  unfold process_appointment, appointment_body. wp_run.
  all: trace_suffix.
  all: intros exported Hin; in_cases Hin.
  all: injection Hin as <-.
  all: split; [reflexivity |].
  all: split; [| repeat constructor].
  all: eexists; split; [reflexivity |]; split; [reflexivity |].
  all: cbn [In]; auto 10.
Qed.

(** A cancellation never reaches the conflict query, whatever else
    happens to it. *)
Lemma process_cancellation_skips_query (n : pystr) (d : list (pystr * value))
    (ty : value) (s : state) :
  lookup d (str "type") = Some ty ->
  py_eq_str ty (str "cancellation") = true ->
  wp (process_appointment env n (PyDict d))
     (fun r s' =>
        exists t, trace s' = trace s ++ t
                  /\ forall qd qs qe, ~ In (EvQuery qd qs qe) t) s.
Proof.
  intros Hty Hkind. unfold process_appointment, appointment_body.
  cbn [py_getitem]. rewrite Hty.
  wp_norm. repeat (rewrite ?Hkind; wp_step).
  all: trace_suffix.
  all: intros qd qs qe Hin; in_cases Hin.
Qed.

(** A cancellation whose date and time parse, when the commit returns. *)
Lemma process_cancellation (n : pystr) (d : list (pystr * value))
    (nm ty dv tv : value) (dt : datetime) (s : state) :
  lookup d (str "name") = Some nm ->
  lookup d (str "type") = Some ty ->
  lookup d (str "date") = Some dv ->
  lookup d (str "time") = Some tv ->
  py_eq_str ty (str "cancellation") = true ->
  strptime (format_value dv ++ str " " ++ format_value tv) = Some dt ->
  appointment_commit env = None ->
  session s = [] ->
  let a := mkAppointment n nm ty (dt_date dt) (dt_time dt) in
  wp (process_appointment env n (PyDict d))
     (fun r s' =>
        r = Ok tt
        /\ appointments s' = appointments s ++ [a]
        /\ exists ok tail,
             trace s'
             = trace s
               ++ [EvStrptime (format_value dv ++ str " " ++ format_value tv);
                   EvAdd (RAppointment a);
                   EvCommit [RAppointment a] true;
                   EvLog CancellationSaved;
                   EvSend CancelNotice n (PyStr (cancellation_msg nm dv tv)) ok]
               ++ tail
             /\ (notice_send env = None -> ok = true /\ tail = [])
             /\ (forall qd qs qe, ~ In (EvQuery qd qs qe) tail)) s.
Proof.
  intros Hn Hty Hd Ht Hkind Hp Hc Hs a.
  destruct s as [cs ap se tr cr ai]. cbn [session] in Hs. subst se.
  unfold process_appointment, appointment_body.
  cbn [py_getitem]. rewrite Hn, Hty, Hd, Ht, Hc.
  wp_norm. repeat (rewrite ?Hp, ?Hkind; wp_step).
  all: split; [reflexivity |]; split; [reflexivity |].
  all: rewrite <- ?app_assoc; cbn [app].
  all: first
    [ exists true, []; split; [reflexivity |]; split; [auto |]; intros ? ? ? []
    | exists false; eexists; split; [reflexivity |];
      split; [intros N; congruence |]; intros ? ? ? Hin; in_cases Hin ].
Qed.

(** A booking whose window holds an appointment: nothing is written and
    the sender is asked for another time. *)
Lemma process_booking_conflict (n : pystr) (d : list (pystr * value))
    (nm ty dv tv : value) (dt : datetime) (start_time end_time : Z)
    (c : Appointment) (s : state) :
  lookup d (str "name") = Some nm ->
  lookup d (str "type") = Some ty ->
  lookup d (str "date") = Some dv ->
  lookup d (str "time") = Some tv ->
  py_eq_str ty (str "cancellation") = false ->
  strptime (format_value dv ++ str " " ++ format_value tv) = Some dt ->
  window dt = Ok (start_time, end_time) ->
  conflict_query env = None ->
  find (in_window (dt_date dt) start_time end_time) (appointments s) = Some c ->
  wp (process_appointment env n (PyDict d))
     (fun r s' =>
        r = Ok tt
        /\ appointments s' = appointments s
        /\ exists ok tail,
             trace s'
             = trace s
               ++ [EvStrptime (format_value dv ++ str " " ++ format_value tv);
                   EvQuery (dt_date dt) start_time end_time;
                   EvLog ConflictDetected;
                   EvSend ConflictNotice n (PyStr conflict_msg) ok]
               ++ tail
             /\ (notice_send env = None -> ok = true /\ tail = [])) s.
Proof.
  intros Hn Hty Hd Ht Hkind Hp Hw Hq Hfind.
  destruct s as [cs ap se tr cr ai]. cbn [appointments] in Hfind.
  unfold process_appointment, appointment_body.
  cbn [py_getitem]. rewrite Hn, Hty, Hd, Ht.
  wp_norm. repeat (rewrite ?Hp, ?Hkind, ?Hw, ?Hq, ?Hfind; wp_step).
  all: split; [reflexivity |]; split; [reflexivity |].
  all: rewrite <- ?app_assoc; cbn [app].
  all: first
    [ exists true, []; split; [reflexivity |]; auto
    | exists false; eexists; split; [reflexivity |]; intros N; congruence ].
Qed.

(** A booking whose window is free, when the commit and the mirror return:
    the appointment is written, mirrored and confirmed. *)
Lemma process_booking_free (n : pystr) (d : list (pystr * value))
    (nm ty dv tv : value) (dt : datetime) (start_time end_time : Z) (s : state) :
  lookup d (str "name") = Some nm ->
  lookup d (str "type") = Some ty ->
  lookup d (str "date") = Some dv ->
  lookup d (str "time") = Some tv ->
  py_eq_str ty (str "cancellation") = false ->
  strptime (format_value dv ++ str " " ++ format_value tv) = Some dt ->
  window dt = Ok (start_time, end_time) ->
  conflict_query env = None ->
  find (in_window (dt_date dt) start_time end_time) (appointments s) = None ->
  appointment_commit env = None ->
  sheet_sync env = None ->
  session s = [] ->
  let a := mkAppointment n nm ty (dt_date dt) (dt_time dt) in
  wp (process_appointment env n (PyDict d))
     (fun r s' =>
        r = Ok tt
        /\ appointments s' = appointments s ++ [a]
        /\ exists ok tail,
             trace s'
             = trace s
               ++ [EvStrptime (format_value dv ++ str " " ++ format_value tv);
                   EvQuery (dt_date dt) start_time end_time;
                   EvAdd (RAppointment a);
                   EvCommit [RAppointment a] true;
                   EvLog AppointmentSaved;
                   EvSync (appointments s ++ [a]) true;
                   EvSend BookingNotice n (PyStr (confirmation_msg nm ty dv tv)) ok]
               ++ tail
             /\ (notice_send env = None -> ok = true /\ tail = [])) s.
Proof.
  intros Hn Hty Hd Ht Hkind Hp Hw Hq Hfind Hc Hsync Hs a.
  destruct s as [cs ap se tr cr ai]. cbn [appointments session] in Hfind, Hs.
  subst se.
  unfold process_appointment, appointment_body.
  cbn [py_getitem]. rewrite Hn, Hty, Hd, Ht, Hc, Hsync.
  wp_norm. repeat (rewrite ?Hp, ?Hkind, ?Hw, ?Hq, ?Hfind; wp_step).
  all: split; [reflexivity |]; split; [reflexivity |].
  all: rewrite <- ?app_assoc; cbn [app].
  all: first
    [ exists true, []; split; [reflexivity |]; auto
    | exists false; eexists; split; [reflexivity |]; intros N; congruence ].
Qed.

End Process.

(** ** The whole request (lines 33-205) *)

Section Reply.
Context `{Runtime}.
Variable env : Env.

(** A request either ends before step 7, with the appointments untouched
    and no event of step 7, or it reaches step 7 right after the chat reply
    was delivered, with an empty session. *)
Lemma wp_reply (Body From : pystr) (convs : list Conversation)
    (appts : list Appointment) (Q : result unit -> state -> Prop) :
  let n := whatsapp_number_of From in
  (forall r s',
     appointments s' = appts ->
     Forall (fun e => appointment_event e = false) (trace s') ->
     (forall body, In (EvSend ChatReply n body true) (trace s') -> r = Ok tt) ->
     (forall text,
        generate_content env Body (context_text n convs) = Ok text ->
        r = Ok tt ->
        truthy (appt_info (snd (parse_response text (initial convs appts)))) = false) ->
     Q r s') ->
  (forall s6 T text,
     generate_content env Body (context_text n convs) = Ok text ->
     appt_info s6 = appt_info (snd (parse_response text (initial convs appts))) ->
     truthy (appt_info s6) = true ->
     appointments s6 = appts ->
     session s6 = [] ->
     trace s6 = T ++ [EvSend ChatReply n (chat_response s6) true] ->
     Forall (fun e => appointment_event e = false) T ->
     wp (process_appointment env n (appt_info s6)) Q s6) ->
  wp (reply env Body From) Q (initial convs appts).
Proof.
  intros n Hend Hstep. unfold reply. fold (whatsapp_number_of From). fold n.
  wp_norm. do 3 wp_step.
  change (conversations (initial convs appts)) with convs.
  destruct (history_query env) as [e |]; wp_norm.
  { wp_step. apply Hend; cbn [initial appointments trace].
    - reflexivity.
    - constructor.
    - intros ? [].
    - intros ? ? Er. discriminate Er. }
  do 4 wp_step.
  destruct (generate_content env Body (context_text n convs)) as [text | e] eqn:Eg;
    wp_norm.
  2: { wp_run. apply Hend; cbn [initial appointments trace app].
       - reflexivity.
       - repeat constructor.
       - intros body Hin. in_cases Hin.
       - intros ? ? Er. discriminate Er. }
  apply wp_bind.
  pose proof (parse_response_frame text (initial convs appts)) as Hf.
  unfold wp in Hf |- *.
  destruct Hf as [Hr [Hcs [Hap [Hse [t [Htr Ht]]]]]].
  rewrite Hr.
  remember (snd (parse_response text (initial convs appts))) as s4 eqn:Es4.
  assert (Hai : forall text',
             Ok text = Ok text' ->
             appt_info s4
             = appt_info (snd (parse_response text' (initial convs appts)))).
  { intros text' E. injection E as <-. now rewrite Es4. }
  assert (Hclean : Forall (fun e => appointment_event e = false) t).
  { eapply Forall_impl; [| exact Ht]. intros e [-> | ->]; reflexivity. }
  assert (Hnosend : forall body, ~ In (EvSend ChatReply n body true) t).
  { intros body Hin. apply (proj1 (Forall_forall _ _) Ht) in Hin.
    destruct Hin; discriminate. }
  clear Es4 Hr Ht. destruct s4 as [cs ap se tr cr ai].
  cbn [conversations appointments session trace appt_info initial app] in *.
  subst cs ap se tr.
  change (wp (store_conversation env n Body ;;
              send_reply env n ;;
              info <- get appt_info ;;
              if truthy info then process_appointment env n info else ret tt)
            Q (mkstate convs appts [] t cr ai)).
  unfold store_conversation, send_reply. wp_run.
  all: cbn [new_conversations new_appointments flat_map app].
  all: rewrite ?app_nil_r.
  all: try (apply Hend; cbn [appointments trace];
            [ reflexivity
            | rewrite ?Forall_app; repeat split; auto; repeat constructor
            | intros body Hin; rewrite ?in_app_iff in Hin; cbn [In] in Hin;
              first [ reflexivity
                    | exfalso; decompose [or] Hin; try discriminate;
                      try contradiction; eapply Hnosend; eassumption ]
            | intros text' Eg' Er;
              first [ discriminate Er
                    | rewrite <- (Hai text' Eg'); assumption ] ]).
  all: match goal with
       | |- wp (process_appointment _ _ _) _ ?s =>
           apply (Hstep s (removelast (trace s)) text eq_refl)
       end.
  all: cbn [appointments session trace chat_response appt_info];
    try reflexivity; try (now apply Hai); try assumption.
  all: rewrite ?removelast_last; try reflexivity.
  all: rewrite ?Forall_app; repeat split; auto; repeat constructor.
Qed.

End Reply.

(** ** The properties of the parser, of step 7 and of the request *)

Lemma split_after_clean {X} (P : X -> bool) (L U pre post : list X) (e : X) :
  Forall (fun y => P y = false) L ->
  pre ++ e :: post = L ++ U ->
  P e = true ->
  exists pre', pre = L ++ pre'.
Proof.
  revert pre. induction L as [| a L IH]; intros pre HF E He.
  - now exists pre.
  - inversion HF as [| ? ? Ha HL]; subst. destruct pre as [| x pre].
    + cbn in E. injection E as -> _. congruence.
    + cbn in E. injection E as -> E. destruct (IH pre HL E He) as [pre' ->].
      now exists pre'.
Qed.

Lemma clean_has_no_appointment_event (l pre post : list event) (e : event) :
  Forall (fun y => appointment_event y = false) l ->
  l = pre ++ e :: post ->
  appointment_event e = true ->
  False.
Proof.
  intros HF -> He. apply Forall_app in HF. destruct HF as [_ HF].
  inversion HF; subst. congruence.
Qed.

Lemma fallback_is_not_default : DEFAULT_REPLY <> FALLBACK.
Proof. discriminate. Qed.

Section Claims.
Context `{Runtime}.

(** A request whose parsed response carries no intent writes no
    appointment and runs nothing of step 7. *)
Lemma reply_without_intent (env : Env) (Body From : pystr)
    (convs : list Conversation) (appts : list Appointment) (text : option pystr) :
  generate_content env Body (context_text (whatsapp_number_of From) convs) = Ok text ->
  truthy (appt_info (snd (parse_response text (initial convs appts)))) = false ->
  appointments (snd (reply env Body From (initial convs appts))) = appts
  /\ Forall (fun e => appointment_event e = false)
            (trace (snd (reply env Body From (initial convs appts)))).
Proof.
  intros Hg Hno.
  change (wp (reply env Body From)
            (fun _ s' => appointments s' = appts
                         /\ Forall (fun e => appointment_event e = false) (trace s'))
            (initial convs appts)).
  apply wp_reply.
  - intros r s' Ha Hc _ _. now split.
  - intros s6 T text' Hg' Hai Hyes _ _ _ _. exfalso.
    rewrite Hg in Hg'. injection Hg' as <-. rewrite Hai in Hyes. congruence.
Qed.

(** C2: a model output that does not decode to a JSON object never makes
    the parser raise: the reply is the fixed fallback text and there is no
    intent, and the request writes no appointment. *)
Theorem malformed_json_falls_back (env : Env) (Body From : pystr)
    (convs : list Conversation) (appts : list Appointment) (raw : pystr) :
  (forall d, json_loads (strip_code_fence raw) <> Some (PyDict d)) ->
  (forall s,
     fst (parse_response (Some raw) s) = Ok tt
     /\ chat_response (snd (parse_response (Some raw) s)) = PyStr FALLBACK
     /\ appt_info (snd (parse_response (Some raw) s)) = PyNone
     /\ has_intent (snd (parse_response (Some raw) s)) = false)
  /\ (generate_content env Body (context_text (whatsapp_number_of From) convs)
      = Ok (Some raw) ->
      appointments (snd (reply env Body From (initial convs appts))) = appts
      /\ Forall (fun e => appointment_event e = false)
                (trace (snd (reply env Body From (initial convs appts))))).
Proof.
  intros Hbad.
  assert (Hp : forall s,
             fst (parse_response (Some raw) s) = Ok tt
             /\ chat_response (snd (parse_response (Some raw) s)) = PyStr FALLBACK
             /\ appt_info (snd (parse_response (Some raw) s)) = PyNone).
  { intros s. exact (parse_malformed raw s Hbad). }
  split.
  - intros s. destruct (Hp s) as [Hr [Hc Ha]]. repeat split; try assumption.
    unfold has_intent. now rewrite Ha.
  - intros Hg. apply (reply_without_intent env Body From convs appts (Some raw) Hg).
    destruct (Hp (initial convs appts)) as [_ [_ Ha]]. now rewrite Ha.
Qed.

(** C5: when the decoded object has an [appointmentinfo] object, the
    parser keeps it as the intent exactly when its four fields name, type,
    date and time are all present and truthy; otherwise the object is
    dropped as a whole, and the request runs nothing of step 7. *)
Theorem intent_requires_all_four_fields (raw : pystr)
    (data info : list (pystr * value)) (s : state) :
  json_loads (strip_code_fence raw) = Some (PyDict data) ->
  lookup data (str "appointmentinfo") = Some (PyDict info) ->
  fst (parse_response (Some raw) s) = Ok tt
  /\ (has_intent (snd (parse_response (Some raw) s)) = true <-> complete info)
  /\ (complete info -> appt_info (snd (parse_response (Some raw) s)) = PyDict info)
  /\ (~ complete info ->
      has_intent (snd (parse_response (Some raw) s)) = false
      /\ (info <> [] -> appt_info (snd (parse_response (Some raw) s)) = PyNone)
      /\ forall env Body From convs appts,
           generate_content env Body (context_text (whatsapp_number_of From) convs)
           = Ok (Some raw) ->
           appointments (snd (reply env Body From (initial convs appts))) = appts
           /\ Forall (fun e => appointment_event e = false)
                     (trace (snd (reply env Body From (initial convs appts))))).
Proof.
  intros Hloads Hinfo.
  destruct (parse_object raw data info s Hloads Hinfo) as [Hr [_ [Hyes Hno]]].
  assert (Hdec : complete info \/ ~ complete info).
  { destruct (all_fields_complete info) as [[] [_ Hiff]].
    - left. now apply Hiff.
    - right. intros Hc. apply Hiff in Hc. discriminate. }
  split; [exact Hr |]. split; [| split; [exact Hyes |]].
  - unfold has_intent. split.
    + intros Ht. destruct Hdec as [Hc | Hn]; [exact Hc |].
      destruct (Hno Hn) as [Hf _]. congruence.
    + intros Hc. rewrite (Hyes Hc). now apply complete_nonempty.
  - intros Hn. destruct (Hno Hn) as [Hf Hnone].
    split; [exact Hf |]. split; [exact Hnone |].
    intros env Body From convs appts Hg.
    apply (reply_without_intent env Body From convs appts (Some raw) Hg).
    destruct (parse_object raw data info (initial convs appts) Hloads Hinfo)
      as [_ [_ [_ Hno']]].
    now destruct (Hno' Hn).
Qed.

(** C6, amended: when the decoded object has no [user_text] key, the
    parser does not fail: the reply is the default text "I'm here to help
    with your real estate needs!", not the fallback text, and a complete
    [appointmentinfo] object is still kept as the intent. *)
Theorem missing_user_text_gets_default_reply (raw : pystr)
    (data : list (pystr * value)) (s : state) :
  json_loads (strip_code_fence raw) = Some (PyDict data) ->
  lookup data (str "user_text") = None ->
  fst (parse_response (Some raw) s) = Ok tt
  /\ chat_response (snd (parse_response (Some raw) s)) = PyStr DEFAULT_REPLY
  /\ PyStr DEFAULT_REPLY <> PyStr FALLBACK
  /\ (forall info,
        lookup data (str "appointmentinfo") = Some (PyDict info) ->
        complete info ->
        appt_info (snd (parse_response (Some raw) s)) = PyDict info
        /\ has_intent (snd (parse_response (Some raw) s)) = true).
Proof.
  intros Hloads Hu.
  assert (Hd : wp (parse_response (Some raw))
                 (fun r s' => r = Ok tt /\ chat_response s' = PyStr DEFAULT_REPLY) s).
  { unfold parse_response, parse_body. do 8 wp_step. rewrite Hloads.
    do 3 wp_step. rewrite Hu. wp_run. all: split; reflexivity. }
  destruct Hd as [Hr Hc].
  split; [exact Hr |]. split; [exact Hc |]. split; [discriminate |].
  intros info Hinfo Hcomplete.
  destruct (parse_object raw data info s Hloads Hinfo) as [_ [_ [Hyes _]]].
  split; [now apply Hyes |].
  unfold has_intent. rewrite (Hyes Hcomplete). now apply complete_nonempty.
Qed.

(** C4: an intent of kind "cancellation" never reaches the conflict query,
    whatever appointments exist; when its date and time parse and the commit
    returns, the appointment is in the database right away, and the notice
    sent to the sender holds the name, the date and the time. *)
Theorem cancellation_is_always_recorded (env : Env) (n : pystr)
    (d : list (pystr * value)) (ty : value) (s : state) :
  lookup d (str "type") = Some ty ->
  py_eq_str ty (str "cancellation") = true ->
  let run := process_appointment env n (PyDict d) s in
  fst run = Ok tt
  /\ (forall t qd qs qe, trace (snd run) = trace s ++ t -> ~ In (EvQuery qd qs qe) t)
  /\ (forall nm dv tv dt,
        lookup d (str "name") = Some nm ->
        lookup d (str "date") = Some dv ->
        lookup d (str "time") = Some tv ->
        strptime (format_value dv ++ str " " ++ format_value tv) = Some dt ->
        appointment_commit env = None ->
        session s = [] ->
        let a := mkAppointment n nm ty (dt_date dt) (dt_time dt) in
        let msg := cancellation_msg nm dv tv in
        appointments (snd run) = appointments s ++ [a]
        /\ (exists ok tail,
              trace (snd run)
              = trace s
                ++ [EvStrptime (format_value dv ++ str " " ++ format_value tv);
                    EvAdd (RAppointment a);
                    EvCommit [RAppointment a] true;
                    EvLog CancellationSaved;
                    EvSend CancelNotice n (PyStr msg) ok]
                ++ tail
              /\ (notice_send env = None -> ok = true /\ tail = []))
        /\ (exists p1 p2 p3 p4,
              msg = p1 ++ format_value nm ++ p2 ++ format_value dv ++ p3
                    ++ format_value tv ++ p4)).
Proof.
  intros Hty Hkind run. split; [apply process_appointment_returns |]. split.
  - intros t qd qs qe Ht.
    destruct (process_cancellation_skips_query env n d ty s Hty Hkind)
      as [t' [Ht' Hno]].
    fold run in Ht'. rewrite Ht' in Ht. apply app_inv_head in Ht. subst t'.
    apply Hno.
  - intros nm dv tv dt Hn Hd Ht Hp Hc Hs a msg.
    destruct (process_cancellation env n d nm ty dv tv dt s
                Hn Hty Hd Ht Hkind Hp Hc Hs)
      as [_ [Ha [ok [tail [Htr [Hok _]]]]]].
    split; [exact Ha |]. split.
    + exists ok, tail. now split.
    + exists (CHECK_MARK ++ str " Cancellation noted. "),
        (str "'s appointment on "), (str " at "), (str " has been cancelled.").
      unfold msg, cancellation_msg. now rewrite <- !app_assoc.
Qed.

(** Once the chat reply is delivered, the request returns normally. *)
Lemma request_returns_once_replied (env : Env) (Body From : pystr)
    (convs : list Conversation) (appts : list Appointment) (body : value) :
  In (EvSend ChatReply (whatsapp_number_of From) body true)
     (trace (snd (reply env Body From (initial convs appts)))) ->
  fst (reply env Body From (initial convs appts)) = Ok tt.
Proof.
  revert body.
  change (wp (reply env Body From)
            (fun r s' =>
               forall body,
                 In (EvSend ChatReply (whatsapp_number_of From) body true) (trace s') ->
                 r = Ok tt)
            (initial convs appts)).
  apply wp_reply.
  - intros r s' _ _ Hok _. exact Hok.
  - intros s6 T text _ _ _ _ _ _ _ body _. apply process_appointment_returns.
Qed.

(** C7: when the commit of the appointment raises a storage error, the
    error is caught and the session is rolled back, so that the database is
    as before; no notice about the appointment is sent; and step 7 never
    raises, whatever fails in it, a date or time that does not parse
    included, so that a request whose chat reply was delivered returns
    normally. *)
Theorem storage_error_is_contained (env : Env) (n : pystr) (info : value)
    (s : state) (t : list event) (rows : list row) :
  appointment_commit env = Some SQLAlchemyError ->
  trace (snd (process_appointment env n info s)) = trace s ++ t ->
  In (EvCommit rows false) t ->
  appointments (snd (process_appointment env n info s)) = appointments s
  /\ conversations (snd (process_appointment env n info s)) = conversations s
  /\ session (snd (process_appointment env n info s)) = []
  /\ In EvRollback t
  /\ In (EvLog AppointmentStoreError) t
  /\ Forall (fun e => is_notice e = false) t
  /\ (forall env' n' info' s0, fst (process_appointment env' n' info' s0) = Ok tt)
  /\ (forall env' Body From convs appts body,
        In (EvSend ChatReply (whatsapp_number_of From) body true)
           (trace (snd (reply env' Body From (initial convs appts)))) ->
        fst (reply env' Body From (initial convs appts)) = Ok tt).
Proof.
  intros Hc Ht Hin.
  destruct (process_storage_error env n info s Hc) as [t' [Ht' Hall]].
  rewrite Ht' in Ht. apply app_inv_head in Ht. subst t'.
  destruct (Hall rows Hin) as [Ha [Hcs [Hs [Hrb [Hlog Hnot]]]]].
  repeat split; try assumption.
  - intros. apply process_appointment_returns.
  - intros env' Body From convs appts body.
    apply request_returns_once_replied.
Qed.

(** C9, amended: when the spreadsheet mirror fails after a booking, the
    booking stays in the database, which was committed before, and the
    request does not fail; but no notice is sent: the sender gets the chat
    reply only. *)
Theorem mirror_failure_keeps_booking_without_notice (env : Env) (n : pystr)
    (info : value) (s : state) (t : list event) (exported : list Appointment) :
  session s = [] ->
  trace (snd (process_appointment env n info s)) = trace s ++ t ->
  In (EvSync exported false) t ->
  fst (process_appointment env n info s) = Ok tt
  /\ (exists a,
        appointments (snd (process_appointment env n info s)) = appointments s ++ [a]
        /\ exported = appointments s ++ [a]
        /\ In (EvCommit [RAppointment a] true) t)
  /\ Forall (fun e => is_notice e = false) t.
Proof.
  intros Hs Ht Hin.
  destruct (process_mirror_failure env n info s Hs) as [t' [Ht' Hall]].
  rewrite Ht' in Ht. apply app_inv_head in Ht. subst t'.
  exact (Hall exported Hin).
Qed.

(** C8: in every request, whatever step 7 does comes after the chat reply
    was delivered: every event of step 7 (date parsing, conflict query,
    appointment write, mirror, notice) has the delivery of the chat reply
    before it in the trace; and once the chat reply is delivered the
    request ends normally, whatever fails in step 7. *)
Theorem chat_reply_precedes_appointment (env : Env) (Body From : pystr)
    (convs : list Conversation) (appts : list Appointment) :
  let n := whatsapp_number_of From in
  let run := reply env Body From (initial convs appts) in
  (forall pre e post,
     trace (snd run) = pre ++ e :: post ->
     appointment_event e = true ->
     In (EvSend ChatReply n (chat_response (snd run)) true) pre)
  /\ (forall body,
        In (EvSend ChatReply n body true) (trace (snd run)) -> fst run = Ok tt).
Proof.
  intros n run.
  change (wp (reply env Body From)
            (fun r s' =>
               (forall pre e post,
                  trace s' = pre ++ e :: post ->
                  appointment_event e = true ->
                  In (EvSend ChatReply n (chat_response s') true) pre)
               /\ (forall body,
                     In (EvSend ChatReply n body true) (trace s') -> r = Ok tt))
            (initial convs appts)).
  apply wp_reply.
  - intros r s' _ Hclean Hok _. split; [| exact Hok].
    intros pre e post E He. exfalso.
    exact (clean_has_no_appointment_event _ _ _ _ Hclean E He).
  - intros s6 T text _ _ _ _ _ Htr Hclean.
    destruct (process_appointment_frame env n (appt_info s6) s6) as [Hcr [t Ht]].
    unfold wp. subst n. split.
    + intros pre e post E He. rewrite Hcr. rewrite Ht, Htr in E.
      assert (HL : Forall (fun y => appointment_event y = false)
                     (T ++ [EvSend ChatReply (whatsapp_number_of From)
                                   (chat_response s6) true])).
      { apply Forall_app. split; [exact Hclean | repeat constructor]. }
      destruct (split_after_clean _ _ _ _ _ _ HL (eq_sym E) He) as [pre' ->].
      apply in_or_app. left. apply in_or_app. right. now left.
    + intros _ _. apply process_appointment_returns.
Qed.

End Claims.

(** ** The scenarios of the specification, run on the reference runtime *)

Section Scenarios.

Import Reference Examples.

(** A showing with no appointment in the database: it is written, mirrored
    and confirmed. *)
Example scenario_booking :
  let r := reply (env_ok jane_showing) (str "book") from_jane (initial [] []) in
  fst r = Ok tt
  /\ appointments (snd r) = [jane]
  /\ In (EvSync [jane] true) (trace (snd r))
  /\ filter is_notice (trace (snd r))
     = [EvSend BookingNotice (str "+15550123")
          (PyStr (CHECK_MARK
                  ++ str " Confirmed! Jane Doe's showing on 2026-03-02 at 14:00."))
          true].
Proof.
  vm_compute. repeat split.
  repeat (first [left; reflexivity | right]).
Qed.

(** The same intent again: a conflict, nothing is written. *)
Example scenario_same_intent_again :
  let r := reply (env_ok jane_showing) (str "book") from_jane (initial [] [jane]) in
  fst r = Ok tt
  /\ appointments (snd r) = [jane]
  /\ filter is_notice (trace (snd r))
     = [EvSend ConflictNotice (str "+15550123") (PyStr conflict_msg) true].
Proof. vm_compute. repeat split. Qed.

(** A cancellation with nothing to cancel is recorded all the same. *)
Example scenario_cancellation :
  let r := reply (env_ok jane_cancellation) (str "cancel") from_jane (initial [] []) in
  fst r = Ok tt
  /\ appointments (snd r) = [jane_cancelled]
  /\ filter is_notice (trace (snd r))
     = [EvSend CancelNotice (str "+15550123")
          (PyStr (CHECK_MARK
                  ++ str " Cancellation noted. Jane Doe's appointment on 2026-03-02 at 14:00 has been cancelled."))
          true].
Proof. vm_compute. repeat split. Qed.

(** A model output that is not JSON: the fallback reply, no appointment. *)
Example scenario_not_json :
  let r := reply (env_ok hi_there) (str "hello") from_jane (initial [] []) in
  fst r = Ok tt
  /\ appointments (snd r) = []
  /\ filter (fun e => match e with EvSend _ _ _ _ => true | _ => false end)
            (trace (snd r))
     = [EvSend ChatReply (str "+15550123") (PyStr FALLBACK) true].
Proof. vm_compute. repeat split. Qed.

(** A fenced document is decoded like the bare one. *)
Example scenario_code_fence :
  json_loads (strip_code_fence ([96; 96; 96] ++ str "json" ++ [10] ++ jane_showing
                                ++ [10; 96; 96; 96; 10]))
  = json_loads jane_showing.
Proof. vm_compute. reflexivity. Qed.

End Scenarios.

(** ** Counterexamples to the claims as first stated *)

Section Counterexamples.

Import Reference Examples.

(** C1 as stated fails: a cancellation at 14:00 makes the conflict check of
    a showing at 14:00 on the same day report a conflict, and the showing is
    refused. *)
Lemma cancellation_row_blocks_booking :
  type (row_at "cancellation" (hm 14 0)) = PyStr (str "cancellation")
  /\ fst (conflict_check (env_ok jane_showing) (mkdt march_2 (hm 14 0))
            (initial [] [row_at "cancellation" (hm 14 0)]))
     = Ok (Some (row_at "cancellation" (hm 14 0)))
  /\ appointments
       (snd (reply (env_ok jane_showing) (str "book") from_jane
               (initial [] [row_at "cancellation" (hm 14 0)])))
     = [row_at "cancellation" (hm 14 0)]
  /\ filter is_notice
       (trace (snd (reply (env_ok jane_showing) (str "book") from_jane
                      (initial [] [row_at "cancellation" (hm 14 0)]))))
     = [EvSend ConflictNotice (str "+15550123") (PyStr conflict_msg) true].
Proof. vm_compute. repeat split. Qed.

(** C6 as stated fails: a JSON object without [user_text] gets the default
    reply, not the fallback one, and its intent is kept. *)
Lemma missing_user_text_is_no_failure :
  (exists data,
     json_loads (strip_code_fence jane_no_user_text) = Some (PyDict data)
     /\ lookup data (str "user_text") = None)
  /\ chat_response (snd (parse_response (Some jane_no_user_text) (initial [] [])))
     <> PyStr FALLBACK
  /\ appt_info (snd (parse_response (Some jane_no_user_text) (initial [] [])))
     = PyDict (jane_info "showing").
Proof.
  split; [| split].
  - eexists. split; vm_compute; reflexivity.
  - vm_compute. discriminate.
  - vm_compute. reflexivity.
Qed.

(** C9 as stated fails: when the spreadsheet API raises, the booking is in
    the database and no confirmation is sent. *)
Lemma mirror_failure_loses_confirmation :
  let r := reply (env_sync_fails jane_showing) (str "book") from_jane
             (initial [] []) in
  fst r = Ok tt
  /\ (exists a, appointments (snd r) = [a] /\ In (EvSync [a] false) (trace (snd r)))
  /\ filter is_notice (trace (snd r)) = [].
Proof.
  vm_compute. repeat split. eexists. split; [reflexivity |].
  repeat (first [left; reflexivity | right]).
Qed.

(** C10 as stated fails: at 00:10 on 0001-01-01 the start of the window is
    no datetime; the conflict check raises instead of reporting no conflict,
    and the showing is not booked. *)
Lemma first_day_window_overflows :
  strptime (str "0001-01-01 00:10") = Some (mkdt 1 (hm 0 10))
  /\ hm 0 10 < minutes 30
  /\ fst (conflict_check (env_ok first_day_showing) (mkdt 1 (hm 0 10)) (initial [] []))
     = Raise OverflowError
  /\ appointments (snd (reply (env_ok first_day_showing) (str "book") from_jane
                          (initial [] [])))
     = []
  /\ filter appointment_event
       (trace (snd (reply (env_ok first_day_showing) (str "book") from_jane
                      (initial [] []))))
     = [EvStrptime (str "0001-01-01 00:10"); EvLog UnexpectedAppointmentError].
Proof. vm_compute. repeat split. Qed.

End Counterexamples.

(** ** The properties at concrete inputs *)

Section Witnesses.

Import Reference Examples.

(** Bounds on concrete dates and times. *)
Ltac concrete :=
  cbv [dt_date dt_time hm minutes DAY MINUTE MAXORDINAL march_2
       row_at jane date time];
  lia.

Lemma conflict_iff_within_30_minutes_witness :
  fst (conflict_check (env_ok []) (mkdt march_2 (hm 14 0))
         (initial [] [row_at "showing" (hm 14 30)]))
  = Ok (Some (row_at "showing" (hm 14 30)))
  /\ fst (conflict_check (env_ok []) (mkdt march_2 (hm 14 0))
            (initial [] [row_at "showing" (hm 14 31)]))
     = Ok None.
Proof.
  split.
  - apply (conflict_iff_within_30_minutes (env_ok []) _ (mkdt march_2 (hm 14 0))
             eq_refl); try concrete; reflexivity.
  - apply (conflict_iff_within_30_minutes (env_ok []) _ (mkdt march_2 (hm 14 0))
             eq_refl) with (a := row_at "showing" (hm 14 31));
      try concrete; reflexivity.
Defined.

Lemma midnight_window_never_conflicts_witness :
  fst (conflict_check (env_ok []) (mkdt march_2 (hm 23 45))
         (initial [] [row_at "showing" (hm 23 45)]))
  = Ok None.
Proof.
  destruct (midnight_window_never_conflicts (env_ok [])
              (initial [] [row_at "showing" (hm 23 45)]) (mkdt march_2 (hm 23 45))
              eq_refl)
    as [st [en [_ [_ [_ Hc]]]]]; try concrete.
  exact Hc.
Defined.

Lemma conflict_check_ignores_kind_witness :
  exists c,
    fst (conflict_check (env_ok []) (mkdt march_2 (hm 14 0))
           (initial [] [row_at "cancellation" (hm 14 10)]))
    = Ok (Some c).
Proof.
  refine (proj1
            (conflict_check_ignores_kind (env_ok [])
               (initial [] [row_at "cancellation" (hm 14 10)])
               (mkdt march_2 (hm 14 0)) (hm 13 30) (hm 14 30)
               (row_at "cancellation" (hm 14 10))
               eq_refl eq_refl (or_introl eq_refl) eq_refl _)).
  concrete.
Defined.

Lemma malformed_json_falls_back_witness :
  chat_response (snd (parse_response (Some hi_there) (initial [] [])))
  = PyStr FALLBACK
  /\ appointments (snd (reply (env_ok hi_there) (str "hello") from_jane
                          (initial [] [])))
     = [].
Proof.
  assert (Hbad : forall d, json_loads (strip_code_fence hi_there) <> Some (PyDict d)).
  { intros d E. vm_compute in E. discriminate E. }
  destruct (malformed_json_falls_back (env_ok hi_there) (str "hello") from_jane
              [] [] hi_there Hbad) as [Hp Hr].
  split.
  - apply (Hp (initial [] [])).
  - apply Hr. reflexivity.
Defined.

Lemma intent_requires_all_four_fields_witness :
  appt_info (snd (parse_response (Some jane_showing) (initial [] [])))
  = PyDict (jane_info "showing")
  /\ has_intent (snd (parse_response (Some jane_no_time) (initial [] []))) = false.
Proof.
  split.
  - refine (proj1 (proj2 (proj2
             (intent_requires_all_four_fields jane_showing
                [(str "user_text",
                  PyStr (str "Let me check Sherri availability for that time..."));
                 (str "appointmentinfo", PyDict (jane_info "showing"))]
                (jane_info "showing") (initial [] []) _ _))) _).
    + vm_compute. reflexivity.
    + vm_compute. reflexivity.
    + intros field [<- | [<- | [<- | [<- | []]]]]; eexists; split; reflexivity.
  - refine (proj1 (proj2 (proj2 (proj2
             (intent_requires_all_four_fields jane_no_time
                [(str "user_text", PyStr (str "At what time?"));
                 (str "appointmentinfo",
                  PyDict [(str "name", PyStr (str "Jane Doe"));
                          (str "type", PyStr (str "showing"));
                          (str "date", PyStr (str "2026-03-02"))])]
                [(str "name", PyStr (str "Jane Doe"));
                 (str "type", PyStr (str "showing"));
                 (str "date", PyStr (str "2026-03-02"))]
                (initial [] []) _ _))) _)).
    + vm_compute. reflexivity.
    + vm_compute. reflexivity.
    + intros Hc. destruct (Hc (str "time")) as [v [E _]].
      * do 3 right. left. reflexivity.
      * vm_compute in E. discriminate E.
Defined.

Lemma missing_user_text_gets_default_reply_witness :
  chat_response (snd (parse_response (Some jane_no_user_text) (initial [] [])))
  = PyStr DEFAULT_REPLY.
Proof.
  refine (proj1 (proj2
           (missing_user_text_gets_default_reply jane_no_user_text
              [(str "appointmentinfo", PyDict (jane_info "showing"))]
              (initial [] []) _ _))).
  - vm_compute. reflexivity.
  - vm_compute. reflexivity.
Defined.

Lemma cancellation_is_always_recorded_witness :
  appointments
    (snd (process_appointment (env_ok []) (str "+15550123")
            (PyDict (jane_info "cancellation")) (initial [] [jane])))
  = [jane; jane_cancelled].
Proof.
  destruct (cancellation_is_always_recorded (env_ok []) (str "+15550123")
              (jane_info "cancellation") (PyStr (str "cancellation"))
              (initial [] [jane]) eq_refl eq_refl)
    as [_ [_ Hrec]].
  destruct (Hrec (PyStr (str "Jane Doe")) (PyStr (str "2026-03-02"))
              (PyStr (str "14:00")) (mkdt march_2 (hm 14 0))
              eq_refl eq_refl eq_refl eq_refl eq_refl eq_refl)
    as [Ha _].
  exact Ha.
Defined.

Lemma storage_error_is_contained_witness :
  appointments
    (snd (process_appointment (env_commit_fails []) (str "+15550123")
            (PyDict (jane_info "showing")) (initial [] [])))
  = []
  /\ session
       (snd (process_appointment (env_commit_fails []) (str "+15550123")
               (PyDict (jane_info "showing")) (initial [] [])))
     = [].
Proof.
  destruct (storage_error_is_contained (env_commit_fails []) (str "+15550123")
              (PyDict (jane_info "showing")) (initial [] [])
              (trace (snd (process_appointment (env_commit_fails [])
                             (str "+15550123") (PyDict (jane_info "showing"))
                             (initial [] []))))
              [RAppointment jane] eq_refl eq_refl)
    as [Ha [_ [Hs _]]].
  - vm_compute. repeat (first [left; reflexivity | right]).
  - split; assumption.
Defined.

Lemma mirror_failure_keeps_booking_without_notice_witness :
  fst (process_appointment (env_sync_fails []) (str "+15550123")
         (PyDict (jane_info "showing")) (initial [] []))
  = Ok tt
  /\ Forall (fun e => is_notice e = false)
       (trace (snd (process_appointment (env_sync_fails []) (str "+15550123")
                      (PyDict (jane_info "showing")) (initial [] [])))).
Proof.
  destruct (mirror_failure_keeps_booking_without_notice (env_sync_fails [])
              (str "+15550123") (PyDict (jane_info "showing")) (initial [] [])
              (trace (snd (process_appointment (env_sync_fails [])
                             (str "+15550123") (PyDict (jane_info "showing"))
                             (initial [] []))))
              [jane] eq_refl eq_refl)
    as [Hr [_ Hn]].
  - vm_compute. repeat (first [left; reflexivity | right]).
  - split; assumption.
Defined.

End Witnesses.

(** * Further properties of the handler and of the spreadsheet mirror *)

(** ** Strings: the sender, the context and the code fence *)

Lemma str_eqb_eq (s t : pystr) : Str.eqb s t = true <-> s = t.
Proof.
  revert t. induction s as [| c s IH]; intros [| d t]; cbn [Str.eqb];
    try (split; [discriminate | discriminate]); [split; reflexivity |].
  rewrite andb_true_iff, Z.eqb_eq, IH. split.
  - intros [-> ->]. reflexivity.
  - intros E. injection E as -> ->. split; reflexivity.
Qed.

Lemma startswith_app (p s : pystr) : Str.startswith (p ++ s) p = true.
Proof.
  induction p as [| c p IH]; [destruct s; reflexivity |].
  cbn [app Str.startswith]. now rewrite Z.eqb_refl, IH.
Qed.

Lemma startswith_longer (s t p : pystr) :
  Str.startswith s p = true -> Str.startswith (s ++ t) p = true.
Proof.
  revert s. induction p as [| d p IH]; intros s Hs.
  - destruct (s ++ t); reflexivity.
  - destruct s as [| c s]; [discriminate Hs |].
    cbn [app Str.startswith] in *. apply andb_true_iff in Hs.
    destruct Hs as [Hc Hs]. now rewrite Hc, (IH s Hs).
Qed.

Lemma remove_fuel_without_w (fuel : nat) (s : pystr) :
  (List.length s < fuel)%nat ->
  Forall (fun c => c <> 119) s ->
  Str.remove_fuel fuel (str "whatsapp:") s = s.
Proof.
  revert fuel. induction s as [| c s IH]; intros [| fuel] Hlen Hw;
    try (cbn in Hlen; lia); [reflexivity |].
  inversion Hw as [| ? ? Hc Hs]; subst. cbn [Str.remove_fuel].
  change (str "whatsapp:") with (119 :: str "hatsapp:").
  cbn [Str.startswith]. apply Z.eqb_neq in Hc. rewrite Hc. cbn [andb].
  f_equal. change (119 :: str "hatsapp:") with (str "whatsapp:").
  apply IH; [cbn in Hlen; lia | exact Hs].
Qed.

(** X1 (line 34): the prefix that the transport puts before a number is
    removed, and a sender without it is left as it is. *)
Theorem whatsapp_prefix_is_removed (number : pystr) :
  Forall (fun c => c <> 119) number ->
  whatsapp_number_of (str "whatsapp:" ++ number) = number
  /\ whatsapp_number_of number = number.
Proof.
  intros Hw. unfold whatsapp_number_of, Str.remove. split.
  - remember (str "whatsapp:") as old eqn:Eold.
    cbn [Str.remove_fuel].
    destruct (old ++ number) as [| c rest] eqn:E; [subst old; discriminate E |].
    rewrite <- E.
    rewrite startswith_app, skipn_app, Nat.sub_diag, skipn_all. cbn [skipn app].
    subst old. apply remove_fuel_without_w; [| exact Hw].
    rewrite length_app. cbn. lia.
  - apply remove_fuel_without_w; [lia | exact Hw].
Qed.

Lemma last_three (A : Type) (l : list A) :
  rev (firstn 3 (rev l)) = skipn (List.length l - 3) l.
Proof. now rewrite firstn_rev, rev_involutive. Qed.

(** X2 (lines 37-39): the context is made of the messages of the sender
    alone, the last three of them at most, oldest first, one per line; it
    is empty when the sender has none. *)
Theorem context_is_last_three_messages (whatsapp_number : pystr)
    (convs : list Conversation) :
  let mine := filter (fun c => Str.eqb (sender c) whatsapp_number) convs in
  exists older recent,
    mine = older ++ recent
    /\ List.length recent = Nat.min 3 (List.length mine)
    /\ Forall (fun c => In c convs /\ sender c = whatsapp_number) recent
    /\ context_text whatsapp_number convs = Str.join_lf (map message recent)
    /\ (mine = [] -> context_text whatsapp_number convs = []).
Proof.
  intros mine.
  exists (firstn (List.length mine - 3) mine), (skipn (List.length mine - 3) mine).
  assert (Hctx : context_text whatsapp_number convs
                 = Str.join_lf (map message (skipn (List.length mine - 3) mine))).
  { unfold context_text. fold mine. now rewrite last_three. }
  split; [symmetry; apply firstn_skipn |]. split; [rewrite length_skipn; lia |].
  split; [| split; [exact Hctx |]].
  - apply Forall_forall. intros c Hc.
    assert (Hm : In c mine).
    { rewrite <- (firstn_skipn (List.length mine - 3) mine).
      apply in_or_app. now right. }
    apply filter_In in Hm. destruct Hm as [Hin He].
    split; [exact Hin | now apply str_eqb_eq].
  - intros E. rewrite Hctx, E. reflexivity.
Qed.

Lemma split_lf_nonempty (s : pystr) : Str.split_lf s <> [].
Proof.
  destruct s as [| c s]; cbn [Str.split_lf]; [discriminate |].
  destruct (c =? 10); [discriminate |].
  destruct (Str.split_lf s); discriminate.
Qed.

Lemma split_lf_app (a b : pystr) :
  Str.split_lf (a ++ 10 :: b) = Str.split_lf a ++ Str.split_lf b.
Proof.
  induction a as [| c a IH]; [reflexivity |].
  cbn [app Str.split_lf]. destruct (c =? 10).
  - now rewrite IH.
  - rewrite IH. pose proof (split_lf_nonempty a) as Hne.
    destruct (Str.split_lf a) as [| l ls]; [contradiction | reflexivity].
Qed.

Lemma split_lf_line (l : pystr) : ~ In 10 l -> Str.split_lf l = [l].
Proof.
  induction l as [| c l IH]; intros Hno; [reflexivity |].
  cbn [Str.split_lf].
  destruct (Z.eqb_spec c 10) as [-> | _]; [exfalso; apply Hno; now left |].
  rewrite IH; [reflexivity |]. intros Hin. apply Hno. now right.
Qed.

Lemma join_split_lf (s : pystr) : Str.join_lf (Str.split_lf s) = s.
Proof.
  induction s as [| c s IH]; [reflexivity |].
  cbn [Str.split_lf]. destruct (Z.eqb_spec c 10) as [-> | _].
  - pose proof (split_lf_nonempty s) as Hne.
    destruct (Str.split_lf s) as [| l ls]; [contradiction |].
    cbn [Str.join_lf app]. now rewrite <- IH.
  - pose proof (split_lf_nonempty s) as Hne.
    destruct (Str.split_lf s) as [| l ls]; [contradiction |].
    rewrite <- IH. destruct ls; reflexivity.
Qed.

Lemma split_lf_length (s : pystr) :
  List.length (Str.split_lf s) = S (count_occ Z.eq_dec s 10).
Proof.
  induction s as [| c s IH]; [reflexivity |].
  cbn [Str.split_lf count_occ].
  destruct (Z.eqb_spec c 10) as [-> | Hc].
  - destruct (Z.eq_dec 10 10); [| contradiction]. cbn [List.length]. now rewrite IH.
  - destruct (Z.eq_dec c 10); [contradiction |].
    pose proof (split_lf_nonempty s) as Hne.
    destruct (Str.split_lf s) as [| l ls]; [contradiction |]. exact IH.
Qed.

(** X3 (lines 100-105): when the stripped text opens with a fence line and
    has at least two more lines, the first line and the last line are
    dropped, whatever the last line is, and the lines between them are the
    document; four letters "json" at its start are dropped too. *)
Theorem fenced_document_is_unwrapped (raw first body last : pystr) :
  Str.strip raw = first ++ 10 :: body ++ 10 :: last ->
  Str.startswith first (str "```") = true ->
  ~ In 10 first ->
  ~ In 10 last ->
  strip_code_fence raw
  = if Str.startswith body (str "json") then Str.strip (skipn 4 body) else body.
Proof.
  intros Htext Hfence Hfirst Hlast. unfold strip_code_fence. rewrite Htext.
  assert (Hs : Str.startswith (first ++ 10 :: body ++ 10 :: last) (str "```") = true).
  { now apply startswith_longer. }
  rewrite Hs.
  assert (Hlines : Str.slice_1_m1 (Str.split_lf (first ++ 10 :: body ++ 10 :: last))
                   = Str.split_lf body).
  { rewrite split_lf_app, (split_lf_line first Hfirst), split_lf_app,
      (split_lf_line last Hlast).
    unfold Str.slice_1_m1. cbn [app tl]. apply removelast_last. }
  rewrite Hlines, join_split_lf. reflexivity.
Qed.

Section Fence.
Context `{Runtime}.

(** X4 (lines 100-107): a stripped text that opens with a fence and has at
    most two lines is emptied; as [json.loads] rejects the empty string, the
    reply is then the fallback text, whatever stood between the fences. *)
Theorem short_fence_is_emptied (raw : pystr) (s : state) :
  Str.startswith (Str.strip raw) (str "```") = true ->
  (count_occ Z.eq_dec (Str.strip raw) 10%Z <= 1)%nat ->
  json_loads [] = None ->
  strip_code_fence raw = []
  /\ fst (parse_response (Some raw) s) = Ok tt
  /\ chat_response (snd (parse_response (Some raw) s)) = PyStr FALLBACK
  /\ appt_info (snd (parse_response (Some raw) s)) = PyNone.
Proof.
  intros Hfence Hcount Hempty.
  assert (Hstrip : strip_code_fence raw = []).
  { unfold strip_code_fence. rewrite Hfence.
    pose proof (split_lf_length (Str.strip raw)) as Hlen.
    destruct (Str.split_lf (Str.strip raw)) as [| l1 [| l2 [| l3 ls]]];
      try reflexivity.
    cbn [List.length] in Hlen. lia. }
  split; [exact Hstrip |].
  apply (parse_malformed raw s). intros d. rewrite Hstrip, Hempty. discriminate.
Qed.

End Fence.

(** ** The steps of a request, one after the other *)

Lemma wp_consequence {A} (m : M A) (P Q : result A -> state -> Prop) (s : state) :
  wp m P s -> (forall r s', P r s' -> Q r s') -> wp m Q s.
Proof. unfold wp. auto. Qed.

Section Steps.
Context `{Runtime}.
Variable env : Env.

(** Step 4 as a rule: it returns, adds log lines only, and leaves in the
    two local variables what it leaves from any state. *)
Lemma wp_parse_response (text : option pystr) (Q : result unit -> state -> Prop)
    (s : state) :
  (forall t,
     Forall (fun e => e = EvLog ParseError \/ e = EvLog IncompleteInfo) t ->
     Q (Ok tt)
       (mkstate (conversations s) (appointments s) (session s) (trace s ++ t)
                (chat_response (snd (parse_response text (initial [] []))))
                (appt_info (snd (parse_response text (initial [] [])))))) ->
  wp (parse_response text) Q s.
Proof.
  intros HQ. pose proof (parse_response_frame text s) as Hf.
  destruct (parse_response_locals text s (initial [] [])) as [Hcr Hai].
  unfold wp in *. destruct Hf as [Hr [Hcs [Hap [Hse [t [Htr Ht]]]]]].
  rewrite Hr. specialize (HQ t Ht). rewrite <- Hcr, <- Hai in HQ.
  destruct (snd (parse_response text s)) as [cs ap se tr cr ai].
  cbn [conversations appointments session trace chat_response appt_info] in *.
  now subst.
Qed.

(** What step 7 may change: it returns, keeps the conversations and the
    chat reply, adds at most one appointment after the existing ones, and
    sends no chat reply. *)
Lemma process_footprint (n : pystr) (info : value) (s : state) :
  session s = [] ->
  wp (process_appointment env n info)
     (fun r s' =>
        r = Ok tt
        /\ conversations s' = conversations s
        /\ chat_response s' = chat_response s
        /\ (exists added, appointments s' = appointments s ++ added
                          /\ (List.length added <= 1)%nat)
        /\ exists t, trace s' = trace s ++ t
                     /\ Forall (fun e => is_chat_reply e = false) t) s.
Proof.
  intros Hs. destruct s as [cs ap se tr cr ai]. cbn [session] in Hs. subst se.
  unfold process_appointment, appointment_body. wp_run.
  all: cbn [new_conversations new_appointments flat_map app]; rewrite ?app_nil_r.
  all: split; [reflexivity |]; split; [reflexivity |]; split; [reflexivity |].
  all: split;
    [ first [ exists []; split; [now rewrite app_nil_r | cbn; lia]
            | eexists; split; [reflexivity | cbn; lia] ] |].
  all: trace_suffix; repeat constructor.
Qed.

End Steps.

(** The request up to step 7: every path that ends before it, and the state
    in which step 7 starts. *)
Ltac reply_run :=
  lazymatch goal with
  | |- wp ?m ?Q (initial ?c ?a) => change (wp m Q (mkstate c a [] [] PyNone PyNone))
  end;
  unfold reply; wp_run;
  try (apply wp_parse_response; intros ?t ?Hlogs;
       unfold store_conversation, send_reply; wp_run;
       cbn [new_conversations new_appointments flat_map app];
       rewrite ?app_nil_r).


Lemma find_app_some {A} (f : A -> bool) (l l' : list A) (x : A) :
  find f l = Some x -> find f (l ++ l') = Some x.
Proof.
  induction l as [| a l IH]; [discriminate |].
  cbn [find app]. destruct (f a); auto.
Qed.

Lemma conflict_check_inv (env : Env) (dt : datetime) (s : state)
    (found : option Appointment) :
  fst (conflict_check env dt s) = Ok found ->
  exists st en,
    window dt = Ok (st, en)
    /\ conflict_query env = None
    /\ found = find (in_window (dt_date dt) st en) (appointments s).
Proof.
  unfold conflict_check, bind, lift, db_query_first, emit, raise, get.
  destruct (window dt) as [[st en] | e]; [| discriminate].
  cbn [fst snd]. destruct (conflict_query env); [discriminate |].
  cbn [fst snd appointments]. intros E. injection E as <-. now exists st, en.
Qed.

(** The paths that the hypotheses on the environment exclude are closed,
    and what they say of the model's text is used. *)
Ltac known_outcomes :=
  try discriminate; try congruence;
  repeat match goal with
         | Hx : Ok _ = Ok _ |- _ => injection Hx as Hx; subst
         | Hx : Some _ = Some _ |- _ => injection Hx as Hx; subst
         end.

Section Requests.
Context `{Runtime}.

(** A request never removes or changes a row. *)
Lemma reply_appends (env : Env) (Body From : pystr)
    (convs : list Conversation) (appts : list Appointment) :
  let s' := snd (reply env Body From (initial convs appts)) in
  (exists added, conversations s' = convs ++ added /\ (List.length added <= 1)%nat)
  /\ (exists added, appointments s' = appts ++ added /\ (List.length added <= 1)%nat).
Proof.
  intros s'.
  change (wp (reply env Body From)
            (fun _ s' =>
               (exists added, conversations s' = convs ++ added
                              /\ (List.length added <= 1)%nat)
               /\ (exists added, appointments s' = appts ++ added
                                 /\ (List.length added <= 1)%nat))
            (initial convs appts)).
  reply_run.
  all: try (split;
            first [ exists []; split; [now rewrite app_nil_r | cbn; lia]
                  | eexists; split; [reflexivity | cbn; lia] ]).
  all: eapply wp_consequence; [apply process_footprint; reflexivity |].
  all: cbn [conversations appointments].
  all: intros r s1 [_ [Hc [_ [Ha _]]]]; rewrite Hc; split; [| exact Ha].
  all: first [ exists []; split; [now rewrite app_nil_r | cbn; lia]
             | eexists; split; [reflexivity | cbn; lia] ].
Qed.

(** X19 (lines 121-203): a request never removes or changes a row: the
    conversations and the appointments it leaves are the ones it found,
    followed by at most one new row each. *)
Theorem request_only_appends (env : Env) (Body From : pystr)
    (convs : list Conversation) (appts : list Appointment) :
  (exists added,
     conversations (snd (reply env Body From (initial convs appts))) = convs ++ added
     /\ (List.length added <= 1)%nat)
  /\ (exists added,
        appointments (snd (reply env Body From (initial convs appts))) = appts ++ added
        /\ (List.length added <= 1)%nat).
Proof. exact (reply_appends env Body From convs appts). Qed.

(** X20 (lines 147-172): no request reopens a slot, a cancellation no more
    than another: when the conflict check finds a row for an instant, it
    finds the same row after any further request. *)
Theorem taken_slot_stays_taken (env env' : Env) (Body From : pystr)
    (convs : list Conversation) (appts : list Appointment) (dt : datetime)
    (c : Appointment) :
  fst (conflict_check env' dt (initial convs appts)) = Ok (Some c) ->
  fst (conflict_check env' dt (snd (reply env Body From (initial convs appts))))
  = Ok (Some c).
Proof.
  intros Hc. apply conflict_check_inv in Hc.
  destruct Hc as [st [en [Hw [Hq Hfind]]]]. cbn [initial appointments] in Hfind.
  rewrite (conflict_check_returns env' dt _ st en Hq Hw).
  destruct (reply_appends env Body From convs appts) as [_ [added [-> _]]].
  f_equal. symmetry in Hfind. now apply find_app_some.
Qed.

(** X5 (lines 75-92): when the model call raises, the exception is logged
    and ends the request: nothing is parsed, stored or sent, not even the
    fallback reply. *)
Theorem model_failure_ends_request (env : Env) (Body From : pystr)
    (convs : list Conversation) (appts : list Appointment) (e : exn) :
  history_query env = None ->
  generate_content env Body (context_text (whatsapp_number_of From) convs)
  = Raise e ->
  reply env Body From (initial convs appts)
  = (Raise e, add_event (EvLog AICallFailed) (initial convs appts)).
Proof.
  intros Hh Hg. unfold whatsapp_number_of in Hg.
  unfold reply, bind, get, ret, raise, lift, try_except, log, emit, add_event.
  rewrite Hh. cbn [initial conversations]. rewrite Hg. reflexivity.
Qed.

(** X6 (lines 121-129): when the commit of step 5 returns, the request
    leaves exactly one new conversation, whatever happens afterwards: the
    sender, the message, and the reply as step 4 left it, before it is cut
    to the length that the transport takes. *)
Theorem conversation_is_stored_before_truncation (env : Env) (Body From : pystr)
    (convs : list Conversation) (appts : list Appointment) (text : option pystr) :
  history_query env = None ->
  generate_content env Body (context_text (whatsapp_number_of From) convs)
  = Ok text ->
  conversation_commit env = None ->
  conversations (snd (reply env Body From (initial convs appts)))
  = convs ++ [mkConversation (whatsapp_number_of From) Body
                (chat_response (snd (parse_response text (initial convs appts))))].
Proof.
  intros Hh Hg Hc. unfold whatsapp_number_of in *.
  destruct (parse_response_locals text (initial convs appts) (initial [] []))
    as [-> _].
  change (wp (reply env Body From)
            (fun _ s' =>
               conversations s'
               = convs ++ [mkConversation (Str.remove (str "whatsapp:") From) Body
                             (chat_response
                                (snd (parse_response text (initial [] []))))])
            (initial convs appts)).
  reply_run; known_outcomes.
  all: try reflexivity.
  all: eapply wp_consequence; [apply process_footprint; reflexivity |].
  all: cbn [conversations]; intros r s1 [_ [-> _]]; reflexivity.
Qed.

End Requests.

Section Requests2.
Context `{Runtime}.

Lemma parse_reply_text (raw : pystr) (data : list (pystr * value)) (s : state) :
  json_loads (strip_code_fence raw) = Some (PyDict data) ->
  chat_response (snd (parse_response (Some raw) s))
  = match lookup data (str "user_text") with
    | Some v => v
    | None => PyStr DEFAULT_REPLY
    end.
Proof.
  intros Hloads.
  change (wp (parse_response (Some raw))
            (fun _ s' => chat_response s'
                         = match lookup data (str "user_text") with
                           | Some v => v
                           | None => PyStr DEFAULT_REPLY
                           end) s).
  unfold parse_response, parse_body. do 8 wp_step. rewrite Hloads. do 3 wp_step.
  destruct (lookup data (str "user_text")); wp_run; reflexivity.
Qed.

Lemma parse_logs_are_no_sends (t : list event) :
  Forall (fun e => e = EvLog ParseError \/ e = EvLog IncompleteInfo) t ->
  Forall (fun e => is_send e = false) t.
Proof.
  intros Ht. eapply Forall_impl; [| exact Ht]. intros ? [-> | ->]; reflexivity.
Qed.

(** X7 (lines 121-137): a storage error in step 5 is rolled back and does
    not stop the request: no conversation is stored, and the chat reply is
    still delivered when the transport takes it. Any other exception of the
    commit ends the request: nothing is sent and no appointment is
    written. *)
Theorem conversation_store_failure (env : Env) (Body From : pystr)
    (convs : list Conversation) (appts : list Appointment) (text : option pystr)
    (e : exn) :
  history_query env = None ->
  generate_content env Body (context_text (whatsapp_number_of From) convs)
  = Ok text ->
  conversation_commit env = Some e ->
  conversations (snd (reply env Body From (initial convs appts))) = convs
  /\ (e = SQLAlchemyError ->
      In EvRollback (trace (snd (reply env Body From (initial convs appts))))
      /\ forall body,
           truncate (chat_response (snd (parse_response text (initial convs appts))))
           = Ok body ->
           reply_send env = None ->
           In (EvSend ChatReply (whatsapp_number_of From) body true)
              (trace (snd (reply env Body From (initial convs appts))))
           /\ fst (reply env Body From (initial convs appts)) = Ok tt)
  /\ (e <> SQLAlchemyError ->
      fst (reply env Body From (initial convs appts)) = Raise e
      /\ appointments (snd (reply env Body From (initial convs appts))) = appts
      /\ Forall (fun ev => is_send ev = false)
                (trace (snd (reply env Body From (initial convs appts))))).
Proof.
  intros Hh Hg Hc. unfold whatsapp_number_of in *.
  destruct (parse_response_locals text (initial convs appts) (initial [] []))
    as [-> _].
  change (wp (reply env Body From)
            (fun r s' =>
               conversations s' = convs
               /\ (e = SQLAlchemyError ->
                   In EvRollback (trace s')
                   /\ forall body,
                        truncate (chat_response
                                    (snd (parse_response text (initial [] []))))
                        = Ok body ->
                        reply_send env = None ->
                        In (EvSend ChatReply (Str.remove (str "whatsapp:") From)
                              body true) (trace s')
                        /\ r = Ok tt)
               /\ (e <> SQLAlchemyError ->
                   r = Raise e /\ appointments s' = appts
                   /\ Forall (fun ev => is_send ev = false) (trace s')))
            (initial convs appts)).
  reply_run; known_outcomes.
  all: try (split; [reflexivity |]; split;
            [ intros E; try discriminate E
            | intros N; try (now destruct N) ]).
  all: try (split; [reflexivity |]; split; [reflexivity |];
            rewrite <- ?app_assoc; cbn [app]; apply Forall_app; split;
            [ now apply parse_logs_are_no_sends | repeat constructor ]).
  all: try (split;
            [ rewrite ?in_app_iff; cbn [In]; tauto
            | intros body Hb Hs; rewrite Hb in *; known_outcomes ]).
  all: try (split; [rewrite ?in_app_iff; cbn [In]; tauto | reflexivity]).
  all: eapply wp_consequence; [apply process_footprint; reflexivity |].
  all: cbn [conversations appointments trace chat_response].
  all: intros r s1 [Hr [Hcs [_ [_ [t1 [Ht1 _]]]]]].
  all: split; [exact Hcs |]; split; [| intros N; now destruct N].
  all: intros _; rewrite Ht1; split;
    [ rewrite ?in_app_iff; cbn [In]; tauto |].
  all: intros body Hb Hs; rewrite Hb in *; known_outcomes.
  all: split; [rewrite ?in_app_iff; cbn [In]; tauto | reflexivity].
Qed.





(** X9 (lines 108, 121-137): a [user_text] that has no length (null, a
    number, a boolean) is stored as the reply of the conversation and then
    ends the request at [len]: nothing is sent to the sender and no
    appointment is written, whatever intent came with it. *)
Theorem unsized_reply_ends_request (env : Env) (Body From : pystr)
    (convs : list Conversation) (appts : list Appointment) (raw : pystr)
    (data : list (pystr * value)) (v : value) :
  history_query env = None ->
  generate_content env Body (context_text (whatsapp_number_of From) convs)
  = Ok (Some raw) ->
  json_loads (strip_code_fence raw) = Some (PyDict data) ->
  lookup data (str "user_text") = Some v ->
  py_len v = Raise TypeError ->
  conversation_commit env = None ->
  fst (reply env Body From (initial convs appts)) = Raise TypeError
  /\ conversations (snd (reply env Body From (initial convs appts)))
     = convs ++ [mkConversation (whatsapp_number_of From) Body v]
  /\ appointments (snd (reply env Body From (initial convs appts))) = appts
  /\ Forall (fun e => is_send e = false)
            (trace (snd (reply env Body From (initial convs appts)))).
Proof.
  intros Hh Hg Hloads Hu Hlen Hc. unfold whatsapp_number_of in *.
  change (wp (reply env Body From)
            (fun r s' =>
               r = Raise TypeError
               /\ conversations s'
                  = convs ++ [mkConversation (Str.remove (str "whatsapp:") From)
                                Body v]
               /\ appointments s' = appts
               /\ Forall (fun e => is_send e = false) (trace s'))
            (initial convs appts)).
  reply_run; known_outcomes.
  all: pose proof (parse_reply_text raw data (initial [] []) Hloads) as Hcr;
    rewrite Hu in Hcr; rewrite Hcr in *.
  all: match goal with
       | Hx : truncate _ = _ |- _ => unfold truncate in Hx; rewrite Hlen in Hx
       end; known_outcomes.
  injection Heqr0 as <-.
  repeat (split; [reflexivity |]).
  rewrite <- ?app_assoc; cbn [app]. apply Forall_app. split;
    [now apply parse_logs_are_no_sends | repeat constructor].
Qed.

(** X15 (lines 109-116, 140-143, 202-203): an [appointmentinfo] that is
    truthy and no object (a string, a number, a list) makes the validation
    raise: a parse error is logged, yet the reply of the model is kept and
    the value stays in place as the intent; step 7 then stops at its first
    item access, logs an unexpected error and writes and sends nothing. *)
Theorem non_object_intent_is_dropped_late (raw : pystr)
    (data : list (pystr * value)) (v : value) (s : state) :
  json_loads (strip_code_fence raw) = Some (PyDict data) ->
  lookup data (str "appointmentinfo") = Some v ->
  truthy v = true ->
  (forall d, v <> PyDict d) ->
  fst (parse_response (Some raw) s) = Ok tt
  /\ chat_response (snd (parse_response (Some raw) s))
     = match lookup data (str "user_text") with
       | Some reply_text => reply_text
       | None => PyStr DEFAULT_REPLY
       end
  /\ appt_info (snd (parse_response (Some raw) s)) = v
  /\ has_intent (snd (parse_response (Some raw) s)) = true
  /\ trace (snd (parse_response (Some raw) s)) = trace s ++ [EvLog ParseError]
  /\ forall env n s2,
       process_appointment env n v s2
       = (Ok tt, add_event (EvLog UnexpectedAppointmentError) s2).
Proof.
  intros Hloads Hv Ht Hno.
  assert (Hparse :
            wp (parse_response (Some raw))
               (fun r s' =>
                  r = Ok tt
                  /\ chat_response s'
                     = match lookup data (str "user_text") with
                       | Some reply_text => reply_text
                       | None => PyStr DEFAULT_REPLY
                       end
                  /\ appt_info s' = v
                  /\ trace s' = trace s ++ [EvLog ParseError]) s).
  { unfold parse_response, parse_body. do 8 wp_step. rewrite Hloads. do 3 wp_step.
    destruct (lookup data (str "user_text")) as [u |]; wp_norm.
    all: do 3 wp_step; rewrite Hv; do 3 wp_step; rewrite Ht.
    all: assert (Hget : all_fields v required_fields = Raise AttributeError)
      by (destruct v as [| b | k | f | t | l | d];
          first [reflexivity | now destruct (Hno d)]).
    all: rewrite Hget; wp_run; repeat split; reflexivity. }
  destruct Hparse as [Hr [Hc [Ha Htr]]].
  repeat split; try assumption.
  - unfold has_intent. now rewrite Ha.
  - intros env n s2. now apply process_non_object.
Qed.

End Requests2.

(** ** Step 7 on a complete intent (lines 140-203) *)

Section Intent.
Context `{Runtime}.
Variable env : Env.
Variable n : pystr.
Variable d : list (pystr * value).
Variables nm ty dv tv : value.
Variable dt : datetime.

Hypothesis Hname : lookup d (str "name") = Some nm.
Hypothesis Htype : lookup d (str "type") = Some ty.
Hypothesis Hdate : lookup d (str "date") = Some dv.
Hypothesis Htime : lookup d (str "time") = Some tv.

Local Abbreviation when_text := (format_value dv ++ str " " ++ format_value tv).
Local Abbreviation booked := (mkAppointment n nm ty (dt_date dt) (dt_time dt)).

(** X13 (lines 143, 197-198): a date and time that [strptime] rejects end
    step 7 at once: the error is logged, no query is made, nothing is
    written and no notice is sent; the request itself returns. *)
Theorem unparsable_date_is_only_logged (s : state) :
  strptime when_text = None ->
  process_appointment env n (PyDict d) s
  = (Ok tt, add_event (EvLog InvalidDateTime) (add_event (EvStrptime when_text) s)).
Proof.
  intros Hp.
  unfold process_appointment, appointment_body, try_except, bind, lift, emit,
    raise, log.
  cbn [py_getitem]. rewrite Hdate, Htime. cbn [fst snd]. rewrite Hp. reflexivity.
Qed.

Section Booking.
Variables start_time end_time : Z.

Hypothesis Hkind : py_eq_str ty (str "cancellation") = false.
Hypothesis Hparse : strptime when_text = Some dt.
Hypothesis Hwindow : window dt = Ok (start_time, end_time).

(** The booking up to the commit: whatever the mirror and the transport do
    afterwards, the appointment is durable and no row is left pending. *)
Lemma booking_is_committed (s : state) :
  conflict_query env = None ->
  find (in_window (dt_date dt) start_time end_time) (appointments s) = None ->
  appointment_commit env = None ->
  session s = [] ->
  wp (process_appointment env n (PyDict d))
     (fun r s' =>
        r = Ok tt
        /\ appointments s' = appointments s ++ [booked]
        /\ conversations s' = conversations s
        /\ session s' = []) s.
Proof.
  intros Hq Hfind Hc Hs.
  destruct s as [cs ap se tr cr ai]. cbn [appointments session] in Hfind, Hs.
  subst se.
  unfold process_appointment, appointment_body.
  cbn [py_getitem]. rewrite Hname, Htype, Hdate, Htime, Hc.
  wp_norm. repeat (rewrite ?Hparse, ?Hkind, ?Hwindow, ?Hq, ?Hfind; wp_step).
  all: cbn [new_conversations new_appointments flat_map app]; rewrite ?app_nil_r.
  all: repeat split; reflexivity.
Qed.

(** X10 (lines 165-190): a booking whose window holds no appointment, when
    the database, the mirror and the transport all answer, is written with
    the number of the sender, exported with every appointment of the
    database, the new one last, and confirmed to the sender, in this
    order. *)
Theorem free_booking_is_stored_mirrored_confirmed (s : state) :
  conflict_query env = None ->
  find (in_window (dt_date dt) start_time end_time) (appointments s) = None ->
  appointment_commit env = None ->
  sheet_sync env = None ->
  notice_send env = None ->
  session s = [] ->
  process_appointment env n (PyDict d) s
  = (Ok tt,
     mkstate (conversations s) (appointments s ++ [booked]) []
       (trace s
        ++ [EvStrptime when_text;
            EvQuery (dt_date dt) start_time end_time;
            EvAdd (RAppointment booked);
            EvCommit [RAppointment booked] true;
            EvLog AppointmentSaved;
            EvSync (appointments s ++ [booked]) true;
            EvSend BookingNotice n (PyStr (confirmation_msg nm ty dv tv)) true])
       (chat_response s) (appt_info s)).
Proof.
  intros Hq Hfind Hc Hsync Hsend Hs.
  rewrite (surjective_pairing (process_appointment env n (PyDict d) s)).
  change (wp (process_appointment env n (PyDict d))
            (fun r s' =>
               (r, s')
               = (Ok tt,
                  mkstate (conversations s) (appointments s ++ [booked]) []
                    (trace s
                     ++ [EvStrptime when_text;
                         EvQuery (dt_date dt) start_time end_time;
                         EvAdd (RAppointment booked);
                         EvCommit [RAppointment booked] true;
                         EvLog AppointmentSaved;
                         EvSync (appointments s ++ [booked]) true;
                         EvSend BookingNotice n
                           (PyStr (confirmation_msg nm ty dv tv)) true])
                    (chat_response s) (appt_info s))) s).
  destruct s as [cs ap se tr cr ai]. cbn [appointments session] in Hfind, Hs.
  subst se.
  unfold process_appointment, appointment_body.
  cbn [py_getitem]. rewrite Hname, Htype, Hdate, Htime, Hc, Hsync, Hsend.
  wp_norm. repeat (rewrite ?Hparse, ?Hkind, ?Hwindow, ?Hq, ?Hfind; wp_step).
  cbn [new_conversations new_appointments flat_map app]; rewrite ?app_nil_r.
  rewrite <- ?app_assoc. reflexivity.
Qed.

(** X11 (lines 168-195): a booking whose window holds an appointment
    writes nothing and exports nothing; the sender is told that the time is
    taken and asked for another one. *)
Theorem taken_booking_is_refused (s : state) (c : Appointment) :
  conflict_query env = None ->
  find (in_window (dt_date dt) start_time end_time) (appointments s) = Some c ->
  notice_send env = None ->
  process_appointment env n (PyDict d) s
  = (Ok tt,
     mkstate (conversations s) (appointments s) (session s)
       (trace s
        ++ [EvStrptime when_text;
            EvQuery (dt_date dt) start_time end_time;
            EvLog ConflictDetected;
            EvSend ConflictNotice n (PyStr conflict_msg) true])
       (chat_response s) (appt_info s)).
Proof.
  intros Hq Hfind Hsend.
  rewrite (surjective_pairing (process_appointment env n (PyDict d) s)).
  change (wp (process_appointment env n (PyDict d))
            (fun r s' =>
               (r, s')
               = (Ok tt,
                  mkstate (conversations s) (appointments s) (session s)
                    (trace s
                     ++ [EvStrptime when_text;
                         EvQuery (dt_date dt) start_time end_time;
                         EvLog ConflictDetected;
                         EvSend ConflictNotice n (PyStr conflict_msg) true])
                    (chat_response s) (appt_info s))) s).
  destruct s as [cs ap se tr cr ai]. cbn [appointments] in Hfind.
  unfold process_appointment, appointment_body.
  cbn [py_getitem]. rewrite Htype, Hdate, Htime, Hsend.
  wp_norm. repeat (rewrite ?Hparse, ?Hkind, ?Hwindow, ?Hq, ?Hfind; wp_step).
  cbn [new_conversations new_appointments flat_map app]; rewrite ?app_nil_r.
  rewrite <- ?app_assoc. reflexivity.
Qed.

(** X12 (lines 165-195): the same booking asked twice is written once.
    When the window contains the time asked for, as it does unless it
    crosses midnight, the appointment that the first request wrote is found
    by the conflict check of the second, whoever sends it and whatever the
    mirror and the transport did the first time. *)
Theorem repeated_booking_is_written_once (s : state) (other : pystr) :
  start_time <= dt_time dt <= end_time ->
  conflict_query env = None ->
  find (in_window (dt_date dt) start_time end_time) (appointments s) = None ->
  appointment_commit env = None ->
  session s = [] ->
  let s1 := snd (process_appointment env n (PyDict d) s) in
  let s2 := snd (process_appointment env other (PyDict d) s1) in
  appointments s1 = appointments s ++ [booked]
  /\ appointments s2 = appointments s1
  /\ exists ok, In (EvSend ConflictNotice other (PyStr conflict_msg) ok) (trace s2).
Proof.
  intros Hin Hq Hfind Hc Hs s1 s2.
  destruct (booking_is_committed s Hq Hfind Hc Hs) as [_ [Ha [_ Hs1]]].
  fold s1 in Ha, Hs1. split; [exact Ha |].
  assert (Hfound : exists c, find (in_window (dt_date dt) start_time end_time)
                               (appointments s1) = Some c).
  { apply find_in_window_some. exists booked. rewrite Ha. split.
    - apply in_or_app. right. now left.
    - cbn [date time]. split; [reflexivity | exact Hin]. }
  destruct Hfound as [c Hfound].
  pose proof (process_booking_conflict env other d nm ty dv tv dt start_time
                end_time c s1 Hname Htype Hdate Htime Hkind Hparse Hwindow Hq
                Hfound) as Hwp.
  unfold wp in Hwp. fold s2 in Hwp.
  destruct Hwp as [_ [Hsame [ok [tail [Ht _]]]]].
  split; [exact Hsame |]. exists ok. rewrite Ht.
  apply in_or_app. right. apply in_or_app. left. cbn [In]. auto.
Qed.

(** X14 (lines 168-172, 199-203): when the conflict query fails, nothing
    is written and no notice is sent, and the request still returns; a
    database error is rolled back and logged as a storage error. *)
Theorem failed_conflict_query_writes_nothing (s : state) (e : exn) :
  conflict_query env = Some e ->
  let s' := snd (process_appointment env n (PyDict d) s) in
  fst (process_appointment env n (PyDict d) s) = Ok tt
  /\ appointments s' = appointments s
  /\ conversations s' = conversations s
  /\ exists t,
       trace s'
       = trace s
         ++ [EvStrptime when_text; EvQuery (dt_date dt) start_time end_time] ++ t
       /\ Forall (fun ev => is_send ev = false) t
       /\ (e = SQLAlchemyError -> t = [EvRollback; EvLog AppointmentStoreError]).
Proof.
  intros Hq s'. subst s'.
  change (wp (process_appointment env n (PyDict d))
            (fun r s' =>
               r = Ok tt
               /\ appointments s' = appointments s
               /\ conversations s' = conversations s
               /\ exists t,
                    trace s'
                    = trace s
                      ++ [EvStrptime when_text;
                          EvQuery (dt_date dt) start_time end_time] ++ t
                    /\ Forall (fun ev => is_send ev = false) t
                    /\ (e = SQLAlchemyError
                        -> t = [EvRollback; EvLog AppointmentStoreError])) s).
  destruct s as [cs ap se tr cr ai].
  unfold process_appointment, appointment_body.
  cbn [py_getitem]. rewrite Htype, Hdate, Htime.
  wp_norm. repeat (rewrite ?Hparse, ?Hkind, ?Hwindow, ?Hq; wp_step).
  all: repeat (split; [reflexivity |]).
  all: rewrite <- ?app_assoc; cbn [app].
  all: eexists; split; [reflexivity |]; split; [repeat constructor |].
  all: intros E; first [discriminate E | reflexivity].
Qed.

End Booking.
End Intent.

(** ** What a notice tells (lines 161, 190, 195) *)

Section Notices.
Context `{Runtime}.
Variable env : Env.

(** X21 (lines 140-203): step 7 sends at most one notice, to the sender.
    A confirmation is only sent for an appointment that is written under
    the number of the sender and was exported; a cancellation notice is
    only sent for an appointment that is written; the notice of a conflict
    is only sent when nothing is written. *)
Theorem notice_tells_what_was_written (n : pystr) (info : value) (s : state) :
  session s = [] ->
  let s' := snd (process_appointment env n info s) in
  exists t,
    trace s' = trace s ++ t
    /\ (List.length (filter is_notice t) <= 1)%nat
    /\ forall from to body ok,
         In (EvSend from to body ok) t ->
         to = n
         /\ match from with
            | ChatReply => False
            | BookingNotice =>
                exists a, appointments s' = appointments s ++ [a]
                          /\ phone a = n
                          /\ In (EvSync (appointments s ++ [a]) true) t
            | CancelNotice =>
                exists a, appointments s' = appointments s ++ [a]
                          /\ phone a = n
                          /\ py_eq_str (type a) (str "cancellation") = true
            | ConflictNotice => appointments s' = appointments s
            end.
Proof.
  intros Hs s'. subst s'.
  change (wp (process_appointment env n info)
            (fun _ s' =>
               exists t,
                 trace s' = trace s ++ t
                 /\ (List.length (filter is_notice t) <= 1)%nat
                 /\ forall from to body ok,
                      In (EvSend from to body ok) t ->
                      to = n
                      /\ match from with
                         | ChatReply => False
                         | BookingNotice =>
                             exists a, appointments s' = appointments s ++ [a]
                                       /\ phone a = n
                                       /\ In (EvSync (appointments s ++ [a]) true) t
                         | CancelNotice =>
                             exists a, appointments s' = appointments s ++ [a]
                                       /\ phone a = n
                                       /\ py_eq_str (type a) (str "cancellation")
                                          = true
                         | ConflictNotice => appointments s' = appointments s
                         end) s).
  destruct s as [cs ap se tr cr ai]. cbn [session] in Hs. subst se.
  unfold process_appointment, appointment_body. wp_run.
  all: cbn [new_conversations new_appointments flat_map app]; rewrite ?app_nil_r.
  all: trace_suffix.
  all: split; [cbn; lia |].
  all: intros from to body ok Hin; in_cases Hin.
  all: injection Hin as <- <- <- <-.
  all: split; [reflexivity |].
  all: first
    [ reflexivity
    | eexists; split; [reflexivity |]; split; [reflexivity |];
      first [ assumption | cbn [In]; auto 10 ] ].
Qed.

End Notices.

(** ** The window of the conflict check (lines 165-166) *)

(** X16 (lines 165-166): for a datetime that exists, the window cannot be
    computed exactly on the first half hour of 0001-01-01 and on the last
    half hour of 9999-12-31; everywhere else its ends are the times of day
    thirty minutes before and after, taken modulo one day. *)
Theorem window_is_defined_but_at_the_ends (dt : datetime) :
  0 < dt_date dt <= MAXORDINAL ->
  0 <= dt_time dt < DAY ->
  (window_out_of_range dt -> window dt = Raise OverflowError)
  /\ (~ window_out_of_range dt ->
      window dt = Ok ((dt_time dt - minutes 30) mod DAY,
                      (dt_time dt + minutes 30) mod DAY)).
Proof.
  intros Hd Ht. split.
  - intros Hout. now apply window_overflow.
  - intros Hin. unfold window_out_of_range in Hin.
    assert (H30 : minutes 30 = 1800000000) by reflexivity.
    assert (HD : DAY = 86400000000) by reflexivity.
    destruct (Z_lt_le_dec (dt_time dt) (minutes 30)) as [Hearly | Hnot_early].
    + rewrite window_early by lia. f_equal. f_equal.
      * apply (Z.mod_unique _ _ (-1)); lia.
      * symmetry. apply Z.mod_small. lia.
    + destruct (Z_lt_le_dec (dt_time dt + minutes 30) DAY) as [Hday | Hlate].
      * rewrite window_same_day by lia. f_equal. f_equal.
        -- symmetry. apply Z.mod_small. lia.
        -- symmetry. apply Z.mod_small. lia.
      * rewrite window_late by lia. f_equal. f_equal.
        -- symmetry. apply Z.mod_small. lia.
        -- apply (Z.mod_unique _ _ 1); lia.
Qed.

(** ** The rows of the sheet (sheets_sync.py, lines 34-65) *)

Section SheetProperties.
Variables str_date str_time : Z -> pystr.

Lemma status_is_sixth_cell (row : list pystr) : status row = nth 5 row [].
Proof.
  unfold status. destruct (5 <? Z.of_nat (List.length row)) eqn:E; [reflexivity |].
  apply Z.ltb_ge in E. symmetry. apply nth_overflow. lia.
Qed.

Lemma kept_row_is_blank (row : list pystr) :
  status_blank row = true -> written_status_blank (map PyStr row).
Proof.
  unfold status_blank, written_status_blank. rewrite status_is_sixth_cell.
  intros Hb. exists (nth 5 row []). split.
  - change (PyStr []) with (PyStr (@nil Z)). apply (map_nth PyStr).
  - destruct (Str.strip (nth 5 row [])); [reflexivity | discriminate].
Qed.

(** X17 (lines 38-58): every row written below the header has a blank
    status: a row of the sheet whose status is filled in is never written
    back, and the row of an appointment has an empty status. *)
Theorem written_rows_have_blank_status (rows : list (list pystr))
    (appts : list Appointment) :
  Forall written_status_blank (tl (sheet_values str_date str_time rows appts)).
Proof.
  unfold sheet_values. cbn [map app tl]. apply Forall_app. split.
  - apply Forall_forall. intros r Hr. apply in_map_iff in Hr.
    destruct Hr as [row [<- Hrow]]. apply filter_In in Hrow.
    now apply kept_row_is_blank.
  - apply Forall_forall. intros r Hr. apply in_map_iff in Hr.
    destruct Hr as [ap [<- _]]. exists []. split; reflexivity.
Qed.

(** X18 (lines 37-65): on a sheet whose data rows all have a blank status,
    as is every row written by an earlier run, nothing is dropped: the rows
    read are written back as they are, and one row per appointment of the
    database is added below them. *)
Theorem blank_rows_are_kept_and_appointments_added (rows : list (list pystr))
    (appts : list Appointment) :
  rows <> [] ->
  Forall (fun row => status_blank row = true) (tl rows) ->
  sheet_values str_date str_time rows appts
  = map (map PyStr) rows ++ map (appointment_cells str_date str_time) appts
  /\ List.length (sheet_values str_date str_time rows appts)
     = (List.length rows + List.length appts)%nat.
Proof.
  intros Hne Hblank.
  assert (Hv : sheet_values str_date str_time rows appts
               = map (map PyStr) rows
                 ++ map (appointment_cells str_date str_time) appts).
  { unfold sheet_values. destruct rows as [| header data]; [contradiction |].
    cbn [tl] in Hblank.
    assert (Hkeep : filter status_blank
                      (if 1 <? Z.of_nat (List.length (header :: data))
                       then tl (header :: data) else [])
                    = data).
    { destruct data as [| r data']; [reflexivity |].
      replace (1 <? Z.of_nat (List.length (header :: r :: data'))) with true
        by (symmetry; apply Z.ltb_lt; cbn [List.length]; lia).
      cbn [tl]. apply forallb_filter_id. apply forallb_forall.
      apply Forall_forall. exact Hblank. }
    rewrite Hkeep. reflexivity. }
  split; [exact Hv |]. rewrite Hv, length_app, !length_map. reflexivity.
Qed.

End SheetProperties.

(** ** The further properties on in_range requests *)

Section MoreScenarios.

Import Reference Examples MoreExamples ReferenceText.

(** The row that was handled is dropped, the other one is written back as
    it was read, and the appointment of the database comes last. *)
Example scenario_sheet :
  sheet_values date_text time_text sheet_rows [jane]
  = [map PyStr DEFAULT_HEADER;
     map PyStr [str "consultation"; str "2026-03-01"; str "09:00:00";
                str "Bob Ray"; str "+15550101"];
     map PyStr [str "showing"; str "2026-03-02"; str "14:00:00"; str "Jane Doe";
                str "+15550123"; []]].
Proof. vm_compute. reflexivity. Qed.

(** An empty sheet gets the default header. *)
Example scenario_empty_sheet :
  sheet_values date_text time_text [] [] = [map PyStr DEFAULT_HEADER].
Proof. vm_compute. reflexivity. Qed.

End MoreScenarios.

Section MoreWitnesses.

Import Reference Examples MoreExamples ReferenceText.

(** Bounds on in_range dates and times. *)
Ltac in_range :=
  cbv [dt_date dt_time hm minutes DAY MINUTE MAXORDINAL march_2
       window_out_of_range];
  lia.

(** A line has no line feed. *)
Ltac one_line :=
  let Hin := fresh "Hin" in
  intros Hin; vm_compute in Hin;
  repeat (destruct Hin as [Hin | Hin]; [discriminate Hin |]);
  exact Hin.

Lemma whatsapp_prefix_is_removed_witness :
  whatsapp_number_of from_jane = str "+15550123"
  /\ whatsapp_number_of (str "+15550123") = str "+15550123".
Proof.
  apply (whatsapp_prefix_is_removed (str "+15550123")).
  vm_compute. repeat (apply Forall_cons; [discriminate |]). apply Forall_nil.
Defined.

Lemma fenced_document_is_unwrapped_witness :
  strip_code_fence fenced_jane = jane_showing.
Proof.
  apply (fenced_document_is_unwrapped fenced_jane (str "```json") jane_showing
           (str "```")).
  - vm_compute. reflexivity.
  - vm_compute. reflexivity.
  - one_line.
  - one_line.
Defined.

Lemma short_fence_is_emptied_witness :
  strip_code_fence fenced_on_one_line = []
  /\ chat_response (snd (parse_response (Some fenced_on_one_line) (initial [] [])))
     = PyStr FALLBACK.
Proof.
  destruct (short_fence_is_emptied fenced_on_one_line (initial [] []))
    as [He [_ [Hc _]]].
  - vm_compute. reflexivity.
  - vm_compute. lia.
  - vm_compute. reflexivity.
  - split; assumption.
Defined.

Lemma model_failure_ends_request_witness :
  reply env_model_fails (str "hello") from_jane (initial [] [jane])
  = (Raise OtherException, add_event (EvLog AICallFailed) (initial [] [jane])).
Proof.
  apply (model_failure_ends_request env_model_fails (str "hello") from_jane []
           [jane] OtherException); reflexivity.
Defined.

Lemma conversation_is_stored_before_truncation_witness :
  conversations (snd (reply (env_ok hi_there) (str "hello") from_jane
                        (initial [] [])))
  = [mkConversation (str "+15550123") (str "hello") (PyStr FALLBACK)].
Proof.
  rewrite (conversation_is_stored_before_truncation (env_ok hi_there)
             (str "hello") from_jane [] [] (Some hi_there)
             eq_refl eq_refl eq_refl).
  vm_compute. reflexivity.
Defined.

Lemma conversation_store_failure_witness :
  conversations (snd (reply (env_conversation_fails hi_there SQLAlchemyError)
                        (str "hello") from_jane (initial [] [])))
  = []
  /\ fst (reply (env_conversation_fails hi_there SQLAlchemyError)
            (str "hello") from_jane (initial [] []))
     = Ok tt.
Proof.
  destruct (conversation_store_failure
              (env_conversation_fails hi_there SQLAlchemyError)
              (str "hello") from_jane [] [] (Some hi_there) SQLAlchemyError
              eq_refl eq_refl eq_refl)
    as [Hc [Hsql _]].
  split; [exact Hc |].
  destruct (Hsql eq_refl) as [_ Hsent].
  apply (Hsent (PyStr FALLBACK)).
  - vm_compute. reflexivity.
  - reflexivity.
Defined.

Lemma unsized_reply_ends_request_witness :
  fst (reply (env_ok null_reply) (str "hello") from_jane (initial [] []))
  = Raise TypeError
  /\ conversations (snd (reply (env_ok null_reply) (str "hello") from_jane
                           (initial [] [])))
     = [mkConversation (str "+15550123") (str "hello") PyNone].
Proof.
  destruct (unsized_reply_ends_request (env_ok null_reply) (str "hello") from_jane
              [] [] null_reply
              [(str "user_text", PyNone); (str "appointmentinfo", PyNone)] PyNone)
    as [Hr [Hc _]]; try (vm_compute; reflexivity).
  split; [exact Hr |]. rewrite Hc. vm_compute. reflexivity.
Defined.

Lemma non_object_intent_is_dropped_late_witness :
  appt_info (snd (parse_response (Some string_intent) (initial [] [])))
  = PyStr (str "tomorrow at noon")
  /\ trace (snd (parse_response (Some string_intent) (initial [] [])))
     = [EvLog ParseError].
Proof.
  destruct (non_object_intent_is_dropped_late string_intent
              [(str "user_text", PyStr (str "Noted."));
               (str "appointmentinfo", PyStr (str "tomorrow at noon"))]
              (PyStr (str "tomorrow at noon")) (initial [] []))
    as [_ [_ [Ha [_ [Ht _]]]]].
  - vm_compute. reflexivity.
  - vm_compute. reflexivity.
  - reflexivity.
  - intros d. discriminate.
  - split; [exact Ha | exact Ht].
Defined.

Lemma taken_slot_stays_taken_witness :
  fst (conflict_check (env_ok []) (mkdt march_2 (hm 14 0))
         (snd (reply (env_ok jane_cancellation) (str "cancel it") from_jane
                 (initial [] [jane]))))
  = Ok (Some jane).
Proof.
  apply (taken_slot_stays_taken (env_ok jane_cancellation) (env_ok [])
           (str "cancel it") from_jane [] [jane] (mkdt march_2 (hm 14 0)) jane).
  vm_compute. reflexivity.
Defined.

Lemma unparsable_date_is_only_logged_witness :
  process_appointment (env_ok []) (str "+15550123") (PyDict jane_day_first)
    (initial [] [])
  = (Ok tt,
     add_event (EvLog InvalidDateTime)
       (add_event (EvStrptime (str "02/03/2026 14:00")) (initial [] []))).
Proof.
  apply (unparsable_date_is_only_logged (env_ok []) (str "+15550123")
           jane_day_first (PyStr (str "02/03/2026")) (PyStr (str "14:00"))
           eq_refl eq_refl).
  vm_compute. reflexivity.
Defined.

Lemma free_booking_is_stored_mirrored_confirmed_witness :
  appointments
    (snd (process_appointment (env_ok []) (str "+15550123")
            (PyDict (jane_info "showing"))
            (initial [] [row_at "showing" (hm 15 0)])))
  = [row_at "showing" (hm 15 0); jane].
Proof.
  rewrite (free_booking_is_stored_mirrored_confirmed (H := runtime) (env_ok []) (str "+15550123")
             (jane_info "showing") (PyStr (str "Jane Doe")) (PyStr (str "showing"))
             (PyStr (str "2026-03-02")) (PyStr (str "14:00"))
             (mkdt march_2 (hm 14 0)) eq_refl eq_refl eq_refl eq_refl
             (hm 13 30) (hm 14 30) eq_refl eq_refl eq_refl
             (initial [] [row_at "showing" (hm 15 0)])
             eq_refl eq_refl eq_refl eq_refl eq_refl eq_refl).
  reflexivity.
Defined.

Lemma taken_booking_is_refused_witness :
  appointments
    (snd (process_appointment (env_ok []) (str "+15550123")
            (PyDict (jane_info "showing"))
            (initial [] [row_at "showing" (hm 14 30)])))
  = [row_at "showing" (hm 14 30)].
Proof.
  rewrite (taken_booking_is_refused (H := runtime) (env_ok []) (str "+15550123")
             (jane_info "showing") (PyStr (str "showing"))
             (PyStr (str "2026-03-02")) (PyStr (str "14:00"))
             (mkdt march_2 (hm 14 0)) eq_refl eq_refl eq_refl
             (hm 13 30) (hm 14 30) eq_refl eq_refl eq_refl
             (initial [] [row_at "showing" (hm 14 30)])
             (row_at "showing" (hm 14 30))
             eq_refl eq_refl eq_refl).
  reflexivity.
Defined.

Lemma repeated_booking_is_written_once_witness :
  appointments
    (snd (process_appointment (env_sync_fails []) (str "+15550100")
            (PyDict (jane_info "showing"))
            (snd (process_appointment (env_sync_fails []) (str "+15550123")
                    (PyDict (jane_info "showing")) (initial [] [])))))
  = [jane].
Proof.
  destruct (repeated_booking_is_written_once (H := runtime) (env_sync_fails [])
              (str "+15550123")
              (jane_info "showing") (PyStr (str "Jane Doe")) (PyStr (str "showing"))
              (PyStr (str "2026-03-02")) (PyStr (str "14:00"))
              (mkdt march_2 (hm 14 0)) eq_refl eq_refl eq_refl eq_refl
              (hm 13 30) (hm 14 30) eq_refl eq_refl eq_refl
              (initial [] []) (str "+15550100")
              ltac:(in_range) eq_refl eq_refl eq_refl eq_refl)
    as [Hfirst [Hsecond _]].
  rewrite Hsecond, Hfirst. reflexivity.
Defined.

Lemma failed_conflict_query_writes_nothing_witness :
  fst (process_appointment (env_query_fails []) (str "+15550123")
         (PyDict (jane_info "showing")) (initial [] []))
  = Ok tt
  /\ appointments
       (snd (process_appointment (env_query_fails []) (str "+15550123")
               (PyDict (jane_info "showing")) (initial [] [])))
     = [].
Proof.
  destruct (failed_conflict_query_writes_nothing (H := runtime) (env_query_fails [])
              (str "+15550123")
              (jane_info "showing") (PyStr (str "showing"))
              (PyStr (str "2026-03-02")) (PyStr (str "14:00"))
              (mkdt march_2 (hm 14 0)) eq_refl eq_refl eq_refl
              (hm 13 30) (hm 14 30) eq_refl eq_refl eq_refl
              (initial [] []) SQLAlchemyError eq_refl)
    as [Hr [Ha _]].
  split; [exact Hr | exact Ha].
Defined.

Lemma notice_tells_what_was_written_witness :
  exists t,
    trace (snd (process_appointment (env_ok []) (str "+15550123")
                  (PyDict (jane_info "showing")) (initial [] [])))
    = t
    /\ (List.length (filter is_notice t) <= 1)%nat.
Proof.
  destruct (notice_tells_what_was_written (env_ok []) (str "+15550123")
              (PyDict (jane_info "showing")) (initial [] []) eq_refl)
    as [t [Ht [Hone _]]].
  exists t. split; [exact Ht | exact Hone].
Defined.

Lemma window_is_defined_but_at_the_ends_witness :
  window (mkdt march_2 (hm 23 45)) = Ok (hm 23 15, hm 0 15)
  /\ window (mkdt 1 (hm 0 10)) = Raise OverflowError.
Proof.
  split.
  - apply (proj2 (window_is_defined_but_at_the_ends (mkdt march_2 (hm 23 45))
                    ltac:(in_range) ltac:(in_range))).
    in_range.
  - apply (proj1 (window_is_defined_but_at_the_ends (mkdt 1 (hm 0 10))
                    ltac:(in_range) ltac:(in_range))).
    in_range.
Defined.

Lemma blank_rows_are_kept_and_appointments_added_witness :
  List.length (sheet_values date_text time_text sheet_rows_unhandled [jane]) = 3%nat.
Proof.
  apply (blank_rows_are_kept_and_appointments_added date_text time_text
           sheet_rows_unhandled [jane]).
  - discriminate.
  - repeat constructor.
Defined.

End MoreWitnesses.
